(** * server.js: the per-user record store of the fitness tracker

    A shallow embedding of [src/server.js] (an Express application on Node)
    and the properties of its specification.

    - JSON data is the inductive type [Json]; a JavaScript value that may be
      [undefined] is an [option Json].
    - The file system under [data/] is explicit state ([FS]); the clock and
      the I/O failures a call meets are its environment ([Env]).
    - What the Node runtime provides and the source only calls ([new Date],
      bcrypt, [toISOString]) is the interface [Runtime].
    - Every route handler is a function from the environment, the state, the
      session and the request body to a response and the next state. *)

From Stdlib Require Import ZArith QArith List String Ascii Bool Lia.
From Stdlib Require Import Permutation Sorted DecimalString.
From stdpp Require Import gmap strings.

Import ListNotations.
Local Open Scope string_scope.
Set Warnings "-register-all".

(** ** JavaScript values *)

(** A JSON value, as [JSON.parse] returns it and [JSON.stringify] writes it.
    Numbers are the exact rationals they denote: rounding and the range of
    binary64 are not modelled. The keys of an object are distinct, and
    [prop] reads the first binding of a key. *)
Inductive Json : Type :=
| JNull
| JBool (b : bool)
| JNum (q : Q)
| JStr (s : string)
| JArr (l : list Json)
| JObj (kvs : list (string * Json)).

(** A JavaScript number: what [parseFloat] returns. *)
Inductive number : Type :=
| NaN
| Infinity (negative : bool)
| Num (q : Q).

Fixpoint assoc (k : string) (kvs : list (string * Json)) : option Json :=
  match kvs with
  | [] => None
  | (k', v) :: r => if String.eqb k k' then Some v else assoc k r
  end.

(** [v.k] for a value that is not [null]: [None] is [undefined]. *)
Definition prop (v : Json) (k : string) : option Json :=
  match v with
  | JObj kvs => assoc k kvs
  | _ => None
  end.

Definition is_null (v : Json) : bool :=
  match v with JNull => true | _ => false end.

(** The values whose conversion to a primitive throws a TypeError, in
    [parseFloat(v)] and in [new Date(v)] alike. An object with an own key
    [toString] is one: its [toString] is a JSON value and so not callable,
    and [valueOf] returns the object. An array is one when it holds one at
    any depth, since [join] converts every element but [null]. Every other
    JSON value converts: an object without that key to [[object Object]]. *)
Fixpoint unconvertible (v : Json) : bool :=
  match v with
  | JObj kvs => match assoc "toString" kvs with Some _ => true | None => false end
  | JArr l => existsb unconvertible l
  | _ => false
  end.

(** [parseFloat(v)] and [new Date(v)] throw; [undefined] converts. *)
Definition throws (v : option Json) : bool :=
  match v with
  | Some j => unconvertible j
  | None => false
  end.

(** [!!v] *)
Definition truthy (v : option Json) : bool :=
  match v with
  | None => false
  | Some JNull => false
  | Some (JBool b) => b
  | Some (JNum q) => negb (Qeq_bool q 0)
  | Some (JStr s) => negb (String.eqb s "")
  | Some (JArr _) => true
  | Some (JObj _) => true
  end.

Definition truthy_number (n : number) : bool :=
  match n with
  | NaN => false
  | Infinity _ => true
  | Num q => negb (Qeq_bool q 0)
  end.

(** [n || d] for a number [n] and a numeric literal [d]. *)
Definition or_default (n : number) (d : Q) : number :=
  if truthy_number n then n else Num d.

(** The number as [JSON.stringify] writes it: [NaN] and the infinities
    become [null]. *)
Definition json_of_number (n : number) : Json :=
  match n with
  | Num q => JNum q
  | _ => JNull
  end.

(** [a === b]. Two arrays or objects are equal when they are the same
    object, which two values parsed from different texts never are. *)
Definition strict_eq (a b : option Json) : bool :=
  match a, b with
  | None, None => true
  | Some JNull, Some JNull => true
  | Some (JBool x), Some (JBool y) => Bool.eqb x y
  | Some (JNum x), Some (JNum y) => Qeq_bool x y
  | Some (JStr x), Some (JStr y) => String.eqb x y
  | _, _ => false
  end.

(** ** [parseFloat] and [parseInt] *)

Definition code (c : ascii) : Z := Z.of_N (N_of_ascii c).

Definition is_space (c : ascii) : bool :=
  let n := code c in
  ((9 <=? n) && (n <=? 13) || (n =? 32))%Z.

Definition digit_of (c : ascii) : option Z :=
  let n := code c in
  if ((48 <=? n) && (n <=? 57))%Z then Some (n - 48)%Z else None.

Definition hex_digit_of (c : ascii) : option Z :=
  let n := code c in
  if ((48 <=? n) && (n <=? 57))%Z then Some (n - 48)%Z
  else if ((97 <=? n) && (n <=? 102))%Z then Some (n - 87)%Z
  else if ((65 <=? n) && (n <=? 70))%Z then Some (n - 55)%Z
  else None.

Fixpoint skip_space (s : string) : string :=
  match s with
  | String c r => if is_space c then skip_space r else s
  | EmptyString => s
  end.

(** The longest run of digits at the head of [s]: its value in [radix],
    how many digits it has, and what follows. *)
Fixpoint read_digits (digit : ascii -> option Z) (radix : Z) (s : string)
  (acc : Z) (count : nat) : Z * nat * string :=
  match s with
  | String c r =>
      match digit c with
      | Some d => read_digits digit radix r (acc * radix + d)%Z (S count)
      | None => (acc, count, s)
      end
  | EmptyString => (acc, count, s)
  end.

Definition read_sign (s : string) : bool * string :=
  match s with
  | String "-" r => (true, r)
  | String "+" r => (false, r)
  | _ => (false, s)
  end.

Definition pow10 (e : Z) : Q :=
  if (0 <=? e)%Z then inject_Z (10 ^ e) else (/ inject_Z (10 ^ (- e)))%Q.

(** ExponentPart, or no exponent when none can be read. *)
Definition read_exponent (s : string) : Z :=
  match s with
  | String c r =>
      if (code c =? 101)%Z || (code c =? 69)%Z then
        let (neg, r') := read_sign r in
        let '(v, n, _) := read_digits digit_of 10 r' 0%Z 0 in
        match n with
        | O => 0%Z
        | S _ => if neg then (- v)%Z else v
        end
      else 0%Z
  | EmptyString => 0%Z
  end.

(** The longest prefix that is a StrUnsignedDecimalLiteral other than
    [Infinity]. *)
Definition read_decimal (s : string) : option Q :=
  let '(i, ni, r1) := read_digits digit_of 10 s 0%Z 0 in
  match r1 with
  | String "." r2 =>
      let '(f, nf, r3) := read_digits digit_of 10 r2 0%Z 0 in
      match ni, nf with
      | O, O => None
      | _, _ =>
          Some (inject_Z (i * 10 ^ Z.of_nat nf + f) / inject_Z (10 ^ Z.of_nat nf)
                * pow10 (read_exponent r3))%Q
      end
  | _ =>
      match ni with
      | O => None
      | S _ => Some (inject_Z i * pow10 (read_exponent r1))%Q
      end
  end.

Definition parseFloat_string (s : string) : number :=
  let (neg, u) := read_sign (skip_space s) in
  if String.prefix "Infinity" u then Infinity neg
  else match read_decimal u with
       | Some q => Num (Qred (if neg then - q else q))
       | None => NaN
       end.

(** [parseFloat(v)] for a [v] whose conversion to a string does not throw
    (the callers test [throws v] first): a number reads back as itself, an
    array as its first element, since the comma [join] puts after it ends
    the number, and anything else that is not a string as no number. *)
Fixpoint parseFloat_json (v : Json) : number :=
  match v with
  | JNum q => Num q
  | JStr s => parseFloat_string s
  | JArr (x :: _) =>
      match x with
      | JNull => NaN
      | _ => parseFloat_json x
      end
  | _ => NaN
  end.

Definition parseFloat (v : option Json) : number :=
  match v with
  | Some j => parseFloat_json j
  | None => NaN
  end.

(** [parseInt(s)] of a route parameter: [None] is [NaN]. *)
Definition parseInt (s : string) : option Z :=
  let (neg, u) := read_sign (skip_space s) in
  let '(v, n, _) :=
    match u with
    | String "0" (String x r) =>
        if (code x =? 120)%Z || (code x =? 88)%Z
        then read_digits hex_digit_of 16 r 0%Z 0
        else read_digits digit_of 10 u 0%Z 0
    | _ => read_digits digit_of 10 u 0%Z 0
    end in
  match n with
  | O => None
  | S _ => Some (if neg then (- v)%Z else v)
  end.

(** [e.id !== id] for the parsed route parameter [id]. *)
Definition id_differs (id : option Z) (e : Json) : bool :=
  match id with
  | Some z => negb (strict_eq (prop e "id") (Some (JNum (inject_Z z))))
  | None => true
  end.

(** ** The runtime *)

(** What the handlers call and Node provides. [Date_value v] is the time
    value of [new Date(v)] in milliseconds, for a [v] that converts
    ([throws v] is false): [None] for an Invalid Date, whose time value is
    [NaN]. *)
Class Runtime : Type := {
  Date_value : option Json -> option Z;
  bcrypt_hash : string -> string;
  bcrypt_compare : string -> string -> bool;
  toISOString : N -> string
}.

(** ** The file system and the environment of a call *)

Record User : Type := {
  u_id : string;
  u_username : Json;
  u_email : Json;
  u_password : string;
  u_createdAt : string
}.

(** [data/users.json] and the files of [data/entries/], by path. *)
Record FS : Type := {
  users : list User;
  files : gmap string Json
}.

(** What one call meets: the reading of the clock, and the files whose
    read or write throws. *)
Record Env : Type := {
  now : N;
  unreadable : string -> bool;
  unwritable : string -> bool
}.

(** [req.session] once a login has set [userId]. *)
Record Session : Type := {
  userId : string;
  username : Json
}.

(** A response by status and JSON body; [Uncaught] when an exception leaves
    the handler, which sends none of the handler's responses and writes
    nothing. *)
Inductive Response : Type :=
| Resp (status : N) (body : Json)
| Uncaught.

Definition DATA_DIR : string := "data".
Definition USERS_FILE : string := DATA_DIR +:+ "/users.json".
Definition ENTRIES_DIR : string := DATA_DIR +:+ "/entries".

Definition read_json (env : Env) (fs : FS) (file : string) (absent : Json) : Json :=
  match files fs !! file with
  | Some v => if unreadable env file then absent else v
  | None => absent
  end.

Definition write_json (env : Env) (fs : FS) (file : string) (v : Json) : bool * FS :=
  if unwritable env file then (false, fs)
  else (true, {| users := users fs; files := <[file := v]> (files fs) |}).

Definition readUsers (env : Env) (fs : FS) : list User :=
  if unreadable env USERS_FILE then [] else users fs.

Definition writeUsers (env : Env) (fs : FS) (us : list User) : bool * FS :=
  if unwritable env USERS_FILE then (false, fs)
  else (true, {| users := us; files := files fs |}).

Definition getUserEntriesFile (userId : string) : string :=
  ENTRIES_DIR +:+ "/" +:+ userId +:+ ".json".

Definition readUserEntries (env : Env) (fs : FS) (userId : string) : Json :=
  read_json env fs (getUserEntriesFile userId) (JArr []).

Definition writeUserEntries (env : Env) (fs : FS) (userId : string) (entries : Json)
  : bool * FS :=
  write_json env fs (getUserEntriesFile userId) entries.

Definition getUserNutritionFile (userId : string) : string :=
  ENTRIES_DIR +:+ "/" +:+ userId +:+ "_nutrition.json".

Definition readUserNutrition (env : Env) (fs : FS) (userId : string) : Json :=
  read_json env fs (getUserNutritionFile userId) (JArr []).

Definition writeUserNutrition (env : Env) (fs : FS) (userId : string) (entries : Json)
  : bool * FS :=
  write_json env fs (getUserNutritionFile userId) entries.

Definition getUserNutritionSettingsFile (userId : string) : string :=
  ENTRIES_DIR +:+ "/" +:+ userId +:+ "_nutrition_settings.json".

Definition default_settings : Json :=
  JObj [("calorieGoal", JNum 2000); ("proteinGoal", JNum 150);
        ("carbsGoal", JNum 200); ("fatsGoal", JNum 65)].

Definition readUserNutritionSettings (env : Env) (fs : FS) (userId : string) : Json :=
  read_json env fs (getUserNutritionSettingsFile userId) default_settings.

Definition writeUserNutritionSettings (env : Env) (fs : FS) (userId : string)
  (settings : Json) : bool * FS :=
  write_json env fs (getUserNutritionSettingsFile userId) settings.

Definition dietFile (userId : string) : string :=
  ENTRIES_DIR +:+ "/" +:+ userId +:+ "_diet.json".

Definition dietSettingsFile (userId : string) : string :=
  ENTRIES_DIR +:+ "/" +:+ userId +:+ "_diet_settings.json".

(** [Date.now()] as a JSON number, and [Date.now().toString()]. *)
Definition Date_now (env : Env) : Json := JNum (inject_Z (Z.of_N (now env))).

Definition Date_now_toString (env : Env) : string :=
  NilZero.string_of_uint (N.to_uint (now env)).

Definition error (msg : string) : Json := JObj [("error", JStr msg)].

(** [isAuthenticated]: [req.session && req.session.userId]. *)
Definition isAuthenticated (s : option Session) : bool :=
  match s with
  | Some x => negb (String.eqb (userId x) "")
  | None => false
  end.

Definition not_authenticated : Response := Resp 401 (error "Not authenticated").

(** ** [Array.prototype.sort] *)

(** The sort is stable. A comparator result of [NaN] counts as [0], so [a]
    goes before [b] only when [cmp a b] is a number below zero. For a
    comparator that orders the elements consistently the result is the one
    stable sorted arrangement, whatever the algorithm. *)
Definition before {A : Type} (cmp : A -> A -> option Z) (a b : A) : bool :=
  match cmp a b with
  | Some d => (d <? 0)%Z
  | None => false
  end.

Fixpoint sort_insert {A : Type} (cmp : A -> A -> option Z) (x : A) (l : list A)
  : list A :=
  match l with
  | [] => [x]
  | y :: r => if before cmp y x then y :: sort_insert cmp x r else x :: y :: r
  end.

Fixpoint Array_sort {A : Type} (cmp : A -> A -> option Z) (l : list A) : list A :=
  match l with
  | [] => []
  | x :: r => sort_insert cmp x (Array_sort cmp r)
  end.

(** The comparators of the add routes, below, throw a TypeError on an
    element that is [null], of which [a.date] cannot be read, and on one
    whose date cannot be converted, of which [new Date(a.date)] cannot be
    built. *)
Definition compare_throws (e : Json) : bool :=
  is_null e || throws (prop e "date").

(** A sort of two or more elements calls the comparator on each of them,
    a sort of fewer on none. The add handlers answer [Uncaught] when this
    holds of the array they sort, and sort with [Array_sort] when not. *)
Definition sort_throws (l : list Json) : bool :=
  (2 <=? length l)%nat && existsb compare_throws l.

(** [new Date(x) - new Date(y)] *)
Definition Date_minus (x y : option Z) : option Z :=
  match x, y with
  | Some a, Some b => Some (a - b)%Z
  | _, _ => None
  end.

Definition entry_time `{Runtime} (e : Json) : option Z := Date_value (prop e "date").

(** [(a, b) => new Date(a.date) - new Date(b.date)], on two elements of
    which [compare_throws] is false: the difference of the time values, no
    number when one of the dates is invalid. *)
Definition by_date_ascending `{Runtime} (a b : Json) : option Z :=
  Date_minus (entry_time a) (entry_time b).

(** [(a, b) => new Date(b.date) - new Date(a.date)], likewise. *)
Definition by_date_descending `{Runtime} (a b : Json) : option Z :=
  Date_minus (entry_time b) (entry_time a).

(** ** The routes *)

Section Routes.
Context `{Runtime}.

(** *** Authentication *)

Definition same_username (name : option Json) (u : User) : bool :=
  strict_eq (Some (u_username u)) name.

(** [POST /api/auth/register]. bcrypt rejects a password that is not a
    string, and nothing catches that. *)
Definition post_auth_register (env : Env) (fs : FS) (body : Json) : Response * FS :=
  let username := prop body "username" in
  let password := prop body "password" in
  let email := prop body "email" in
  if negb (truthy username) || negb (truthy password) then
    (Resp 400 (error "Username and password required"), fs)
  else
    let users := readUsers env fs in
    match find (same_username username) users with
    | Some _ => (Resp 400 (error "Username already exists"), fs)
    | None =>
        match password with
        | Some (JStr pw) =>
            let newUser :=
              {| u_id := Date_now_toString env;
                 u_username := default JNull username;
                 u_email := if truthy email then default JNull email else JStr "";
                 u_password := bcrypt_hash pw;
                 u_createdAt := toISOString (now env) |} in
            let fs1 := snd (writeUsers env fs (users ++ [newUser])) in
            let fs2 := snd (writeUserEntries env fs1 (u_id newUser) (JArr [])) in
            (Resp 201
               (JObj [("message", JStr "User registered successfully");
                      ("user", JObj [("id", JStr (u_id newUser));
                                     ("username", u_username newUser)])]),
             fs2)
        | _ => (Uncaught, fs)
        end
    end.

(** [POST /api/auth/login]: the response and the session afterwards. *)
Definition post_auth_login (env : Env) (fs : FS) (session : option Session)
  (body : Json) : Response * option Session :=
  let username := prop body "username" in
  let password := prop body "password" in
  if negb (truthy username) || negb (truthy password) then
    (Resp 400 (error "Username and password required"), session)
  else
    let users := readUsers env fs in
    match find (same_username username) users with
    | None => (Resp 401 (error "Invalid credentials"), session)
    | Some user =>
        match password with
        | Some (JStr pw) =>
            if negb (bcrypt_compare pw (u_password user)) then
              (Resp 401 (error "Invalid credentials"), session)
            else
              (Resp 200
                 (JObj [("message", JStr "Login successful");
                        ("user", JObj [("id", JStr (u_id user));
                                       ("username", u_username user)])]),
               Some {| userId := u_id user; username := u_username user |})
        | _ => (Uncaught, session)
        end
    end.

(** [POST /api/auth/logout] *)
Definition post_auth_logout (session : option Session) : Response * option Session :=
  (Resp 200 (JObj [("message", JStr "Logout successful")]), None).

(** [GET /api/auth/status] *)
Definition get_auth_status (session : option Session) : Response :=
  match session with
  | Some s =>
      if isAuthenticated session then
        Resp 200 (JObj [("authenticated", JBool true);
                        ("user", JObj [("id", JStr (userId s));
                                       ("username", username s)])])
      else Resp 200 (JObj [("authenticated", JBool false)])
  | None => Resp 200 (JObj [("authenticated", JBool false)])
  end.

(** *** Weight entries *)

(** [GET /api/entries] *)
Definition get_entries (env : Env) (fs : FS) (userId : string) : Response :=
  Resp 200 (readUserEntries env fs userId).

(** [POST /api/entries]. [parseFloat(weight)] throws for a weight that
    cannot be converted, [entries.push] when the file holds no array, and
    the sort when its comparator does; nothing is written then. *)
Definition post_entries (env : Env) (fs : FS) (userId : string) (body : Json)
  : Response * FS :=
  let date := prop body "date" in
  let weight := prop body "weight" in
  if negb (truthy date) || negb (truthy weight) then
    (Resp 400 (error "Date and weight are required"), fs)
  else
    match readUserEntries env fs userId with
    | JArr entries =>
        let newEntry :=
          JObj [("id", Date_now env);
                ("date", default JNull date);
                ("weight", json_of_number (parseFloat weight))] in
        if throws weight then (Uncaught, fs)
        else if sort_throws (entries ++ [newEntry]) then (Uncaught, fs)
        else
          let sorted := Array_sort by_date_ascending (entries ++ [newEntry]) in
          match writeUserEntries env fs userId (JArr sorted) with
          | (true, fs') => (Resp 201 newEntry, fs')
          | (false, fs') => (Resp 500 (error "Failed to save entry"), fs')
          end
    | _ => (Uncaught, fs)
    end.

(** [DELETE /api/entries/:id] *)
Definition delete_entries (env : Env) (fs : FS) (userId : string) (id_param : string)
  : Response * FS :=
  let id := parseInt id_param in
  match readUserEntries env fs userId with
  | JArr entries =>
      if existsb is_null entries then (Uncaught, fs)
      else
        let kept := List.filter (id_differs id) entries in
        if (length kept =? length entries)%nat then
          (Resp 404 (error "Entry not found"), fs)
        else
          match writeUserEntries env fs userId (JArr kept) with
          | (true, fs') =>
              (Resp 200 (JObj [("message", JStr "Entry deleted successfully")]), fs')
          | (false, fs') => (Resp 500 (error "Failed to delete entry"), fs')
          end
  | _ => (Uncaught, fs)
  end.

(** *** Nutrition entries *)

(** [GET /api/nutrition/entries] *)
Definition get_nutrition_entries (env : Env) (fs : FS) (userId : string) : Response :=
  Resp 200 (readUserNutrition env fs userId).

(** [POST /api/nutrition/entries]: save all. *)
Definition post_nutrition_entries (env : Env) (fs : FS) (userId : string) (body : Json)
  : Response * FS :=
  match body with
  | JArr entries =>
      match writeUserNutrition env fs userId (JArr entries) with
      | (true, fs') =>
          (Resp 200
             (JObj [("success", JBool true);
                    ("message", JStr "Entries saved successfully");
                    ("count", JNum (inject_Z (Z.of_nat (length entries))))]),
           fs')
      | (false, fs') => (Resp 500 (error "Failed to save entries"), fs')
      end
  | _ => (Resp 400 (error "Invalid data format"), fs)
  end.

(** Building the new entry of the nutrition and diet routes throws when
    one of the four numbers cannot be converted. *)
Definition macros_throw (body : Json) : bool :=
  throws (prop body "calories") || throws (prop body "protein")
  || throws (prop body "carbs") || throws (prop body "fats").

(** [POST /api/nutrition/entry]. The four [parseFloat] throw for a field
    that cannot be converted, and the sort when its comparator does. *)
Definition post_nutrition_entry (env : Env) (fs : FS) (userId : string) (body : Json)
  : Response * FS :=
  let date := prop body "date" in
  let type := prop body "type" in
  let name := prop body "name" in
  let calories := prop body "calories" in
  let protein := prop body "protein" in
  let carbs := prop body "carbs" in
  let fats := prop body "fats" in
  if negb (truthy date) || negb (truthy type) || negb (truthy name)
     || strict_eq calories None then
    (Resp 400 (error "Required fields missing"), fs)
  else
    match readUserNutrition env fs userId with
    | JArr entries =>
        let newEntry :=
          JObj [("id", Date_now env);
                ("date", default JNull date);
                ("type", default JNull type);
                ("name", default JNull name);
                ("calories", json_of_number (or_default (parseFloat calories) 0));
                ("protein", json_of_number (or_default (parseFloat protein) 0));
                ("carbs", json_of_number (or_default (parseFloat carbs) 0));
                ("fats", json_of_number (or_default (parseFloat fats) 0))] in
        if macros_throw body then (Uncaught, fs)
        else if sort_throws (entries ++ [newEntry]) then (Uncaught, fs)
        else
          let sorted := Array_sort by_date_descending (entries ++ [newEntry]) in
          match writeUserNutrition env fs userId (JArr sorted) with
          | (true, fs') =>
              (Resp 201
                 (JObj [("success", JBool true);
                        ("message", JStr "Entry added successfully");
                        ("entry", newEntry)]),
               fs')
          | (false, fs') => (Resp 500 (error "Failed to add entry"), fs')
          end
    | _ => (Uncaught, fs)
    end.

(** [DELETE /api/nutrition/entry/:id] *)
Definition delete_nutrition_entry (env : Env) (fs : FS) (userId : string)
  (id_param : string) : Response * FS :=
  let id := parseInt id_param in
  match readUserNutrition env fs userId with
  | JArr entries =>
      if existsb is_null entries then (Uncaught, fs)
      else
        let kept := List.filter (id_differs id) entries in
        if (length kept =? length entries)%nat then
          (Resp 404 (error "Entry not found"), fs)
        else
          match writeUserNutrition env fs userId (JArr kept) with
          | (true, fs') =>
              (Resp 200 (JObj [("success", JBool true);
                               ("message", JStr "Entry deleted successfully")]),
               fs')
          | (false, fs') => (Resp 500 (error "Failed to delete entry"), fs')
          end
  | _ => (Uncaught, fs)
  end.

(** *** Nutrition settings *)

(** Building the settings object throws when one of the four goals cannot
    be converted. *)
Definition settings_throw (body : Json) : bool :=
  throws (prop body "calorieGoal") || throws (prop body "proteinGoal")
  || throws (prop body "carbsGoal") || throws (prop body "fatsGoal").

(** The object both settings routes build from the body, when that does
    not throw. *)
Definition settings_of (body : Json) : Json :=
  JObj [("calorieGoal", json_of_number (or_default (parseFloat (prop body "calorieGoal")) 2000));
        ("proteinGoal", json_of_number (or_default (parseFloat (prop body "proteinGoal")) 150));
        ("carbsGoal", json_of_number (or_default (parseFloat (prop body "carbsGoal")) 200));
        ("fatsGoal", json_of_number (or_default (parseFloat (prop body "fatsGoal")) 65))].

(** [GET /api/nutrition/settings] *)
Definition get_nutrition_settings (env : Env) (fs : FS) (userId : string) : Response :=
  Resp 200 (readUserNutritionSettings env fs userId).

(** [POST /api/nutrition/settings]. The object is built before the
    write, so a goal that cannot be converted leaves the store as it is. *)
Definition post_nutrition_settings (env : Env) (fs : FS) (userId : string) (body : Json)
  : Response * FS :=
  let settings := settings_of body in
  if settings_throw body then (Uncaught, fs)
  else
    match writeUserNutritionSettings env fs userId settings with
    | (true, fs') =>
        (Resp 200 (JObj [("success", JBool true);
                         ("message", JStr "Settings saved successfully");
                         ("settings", settings)]),
         fs')
    | (false, fs') => (Resp 500 (error "Failed to save settings"), fs')
    end.

(** *** Legacy diet routes *)

(** [GET /api/diet] *)
Definition get_diet (env : Env) (fs : FS) (userId : string) : Response :=
  Resp 200 (read_json env fs (dietFile userId) (JArr [])).

(** [POST /api/diet]. Only the read and the write are inside [try]: the
    four [parseFloat] and the sort throw as on the nutrition route. *)
Definition post_diet (env : Env) (fs : FS) (userId : string) (body : Json)
  : Response * FS :=
  let date := prop body "date" in
  let meal := prop body "meal" in
  let foodName := prop body "foodName" in
  let calories := prop body "calories" in
  let protein := prop body "protein" in
  let carbs := prop body "carbs" in
  let fats := prop body "fats" in
  if negb (truthy date) || negb (truthy meal) || negb (truthy foodName)
     || negb (truthy calories) then
    (Resp 400 (error "Required fields missing"), fs)
  else
    match read_json env fs (dietFile userId) (JArr []) with
    | JArr entries =>
        let newEntry :=
          JObj [("id", Date_now env);
                ("date", default JNull date);
                ("meal", default JNull meal);
                ("foodName", default JNull foodName);
                ("calories", json_of_number (parseFloat calories));
                ("protein", json_of_number (or_default (parseFloat protein) 0));
                ("carbs", json_of_number (or_default (parseFloat carbs) 0));
                ("fats", json_of_number (or_default (parseFloat fats) 0))] in
        if macros_throw body then (Uncaught, fs)
        else if sort_throws (entries ++ [newEntry]) then (Uncaught, fs)
        else
          let sorted := Array_sort by_date_descending (entries ++ [newEntry]) in
          match write_json env fs (dietFile userId) (JArr sorted) with
          | (true, fs') => (Resp 201 newEntry, fs')
          | (false, fs') => (Resp 500 (error "Failed to save entry"), fs')
          end
    | _ => (Uncaught, fs)
    end.

(** [DELETE /api/diet/:id]. The whole body is inside [try]: a failed read
    and an exception of [filter] answer 500 as a failed write does. *)
Definition delete_diet (env : Env) (fs : FS) (userId : string) (id_param : string)
  : Response * FS :=
  let id := parseInt id_param in
  match files fs !! dietFile userId with
  | None => (Resp 404 (error "No entries found"), fs)
  | Some content =>
      if unreadable env (dietFile userId) then
        (Resp 500 (error "Failed to delete entry"), fs)
      else
        match content with
        | JArr entries =>
            if existsb is_null entries then
              (Resp 500 (error "Failed to delete entry"), fs)
            else
              let kept := List.filter (id_differs id) entries in
              if (length kept =? length entries)%nat then
                (Resp 404 (error "Entry not found"), fs)
              else
                match write_json env fs (dietFile userId) (JArr kept) with
                | (true, fs') =>
                    (Resp 200 (JObj [("message", JStr "Entry deleted successfully")]),
                     fs')
                | (false, fs') => (Resp 500 (error "Failed to delete entry"), fs')
                end
        | _ => (Resp 500 (error "Failed to delete entry"), fs)
        end
  end.

(** [GET /api/diet/settings] *)
Definition get_diet_settings (env : Env) (fs : FS) (userId : string) : Response :=
  Resp 200 (read_json env fs (dietSettingsFile userId) default_settings).

(** [POST /api/diet/settings]. The object is built outside [try]. *)
Definition post_diet_settings (env : Env) (fs : FS) (userId : string) (body : Json)
  : Response * FS :=
  let settings := settings_of body in
  if settings_throw body then (Uncaught, fs)
  else
    match write_json env fs (dietSettingsFile userId) settings with
    | (true, fs') => (Resp 200 settings, fs')
    | (false, fs') => (Resp 500 (error "Failed to save settings"), fs')
    end.

(** *** Dispatch *)

(** The routes behind [isAuthenticated]. *)
Inductive Protected : Type :=
| GET_entries
| POST_entries (body : Json)
| DELETE_entries (id : string)
| GET_nutrition_entries
| POST_nutrition_entries (body : Json)
| POST_nutrition_entry (body : Json)
| DELETE_nutrition_entry (id : string)
| GET_nutrition_settings
| POST_nutrition_settings (body : Json)
| GET_diet
| POST_diet (body : Json)
| DELETE_diet (id : string)
| GET_diet_settings
| POST_diet_settings (body : Json).

Definition run_protected (env : Env) (fs : FS) (userId : string) (r : Protected)
  : Response * FS :=
  match r with
  | GET_entries => (get_entries env fs userId, fs)
  | POST_entries body => post_entries env fs userId body
  | DELETE_entries id => delete_entries env fs userId id
  | GET_nutrition_entries => (get_nutrition_entries env fs userId, fs)
  | POST_nutrition_entries body => post_nutrition_entries env fs userId body
  | POST_nutrition_entry body => post_nutrition_entry env fs userId body
  | DELETE_nutrition_entry id => delete_nutrition_entry env fs userId id
  | GET_nutrition_settings => (get_nutrition_settings env fs userId, fs)
  | POST_nutrition_settings body => post_nutrition_settings env fs userId body
  | GET_diet => (get_diet env fs userId, fs)
  | POST_diet body => post_diet env fs userId body
  | DELETE_diet id => delete_diet env fs userId id
  | GET_diet_settings => (get_diet_settings env fs userId, fs)
  | POST_diet_settings body => post_diet_settings env fs userId body
  end.

(** A protected route as Express runs it: [isAuthenticated] first. *)
Definition protected (env : Env) (fs : FS) (session : option Session) (r : Protected)
  : Response * FS :=
  match session with
  | Some s =>
      if isAuthenticated session then run_protected env fs (userId s) r
      else (not_authenticated, fs)
  | None => (not_authenticated, fs)
  end.

(** The event loop runs the handler of one request to its end before it
    starts the next: a handler of a protected route is synchronous code
    ([readFileSync], [writeFileSync], no [await] and no callback). A run of
    the server over requests that are in flight together is therefore the
    handlers applied one after another, in the order the loop picked them. *)
Record Call : Type := {
  call_env : Env;
  call_session : option Session;
  call_route : Protected
}.

Fixpoint serve (fs : FS) (calls : list Call) : list Response * FS :=
  match calls with
  | [] => ([], fs)
  | c :: rest =>
      let (r, fs1) := protected (call_env c) fs (call_session c) (call_route c) in
      let (rs, fs2) := serve fs1 rest in
      (r :: rs, fs2)
  end.


End Routes.

(** ** Vocabulary of the properties *)


(** The three collections a record is added to, each with its file. *)
Inductive Collection : Type := Weight | Nutrition | Diet.

Definition collection_file (c : Collection) (userId : string) : string :=
  match c with
  | Weight => getUserEntriesFile userId
  | Nutrition => getUserNutritionFile userId
  | Diet => dietFile userId
  end.

Definition add_to (c : Collection) (body : Json) : Protected :=
  match c with
  | Weight => POST_entries body
  | Nutrition => POST_nutrition_entry body
  | Diet => POST_diet body
  end.

(** The five files of a user. *)
Definition user_files (userId : string) : list string :=
  [getUserEntriesFile userId; getUserNutritionFile userId;
   getUserNutritionSettingsFile userId; dietFile userId; dietSettingsFile userId].

(** The records a file holds: none when it is absent or holds no array. *)
Definition records (fs : FS) (file : string) : list Json :=
  match files fs !! file with
  | Some (JArr l) => l
  | _ => []
  end.

Definition created (r : Response) : bool :=
  match r with
  | Resp 201 _ => true
  | _ => false
  end.

Definition failed (r : Response) : bool :=
  match r with
  | Resp status _ => (400 <=? status)%N
  | Uncaught => true
  end.

(** The four goals of a settings object with their defaults. *)
Definition goal_defaults : list (string * Q) :=
  [("calorieGoal", 2000%Q); ("proteinGoal", 150%Q); ("carbsGoal", 200%Q);
   ("fatsGoal", 65%Q)].

(** The three ways the nutrition collection is changed. *)
Inductive Mutation : Type :=
| Add (body : Json)
| Remove (id : string)
| ReplaceAll (body : Json).

Definition route_of (m : Mutation) : Protected :=
  match m with
  | Add body => POST_nutrition_entry body
  | Remove id => DELETE_nutrition_entry id
  | ReplaceAll body => POST_nutrition_entries body
  end.


(** The ids [register] issues are [Date.now().toString()]: decimal digits. *)
Fixpoint all_digits (s : string) : bool :=
  match s with
  | EmptyString => true
  | String c r => match digit_of c with Some _ => all_digits r | None => false end
  end.

Section Order.
Context `{Runtime}.

(** The time value of a record's date, [0] when it has none. *)
Definition time_key (e : Json) : Z := default 0%Z (entry_time e).

(** A record the comparators can order: not [null], with a date that
    converts and is a valid date. *)
Definition dated (e : Json) : bool :=
  negb (compare_throws e)
  && match entry_time e with Some _ => true | None => false end.

Definition not_later (a b : Json) : Prop :=
  match entry_time a, entry_time b with
  | Some x, Some y => (x <= y)%Z
  | _, _ => False
  end.


Definition descending (l : list Json) : Prop :=
  StronglySorted (fun a b => not_later b a) l.

Definition on_day (t : Z) (e : Json) : bool :=
  match entry_time e with
  | Some x => (x =? t)%Z
  | None => false
  end.

(** [l] keeps the records of equal date in the order they have in [l0]. *)
Definition ties_as_in (l0 l : list Json) : Prop :=
  forall t : Z, List.filter (on_day t) l = List.filter (on_day t) l0.

End Order.

(** The comparator orders the members of [l] as the integer [key] does. *)
Definition agrees {A : Type} (cmp : A -> A -> option Z) (key : A -> Z) (l : list A)
  : Prop :=
  forall a b, In a l -> In b l -> before cmp a b = (key a <? key b)%Z.

(** ** A runtime for the examples *)

(** Days from 1970-01-01 to the given day of the proleptic Gregorian
    calendar. *)
Definition days_from_civil (y m d : Z) : Z :=
  let y' := if (m <=? 2)%Z then (y - 1)%Z else y in
  let era := (y' / 400)%Z in
  let yoe := (y' - era * 400)%Z in
  let mp := if (m <=? 2)%Z then (m + 9)%Z else (m - 3)%Z in
  let doy := ((153 * mp + 2) / 5 + d - 1)%Z in
  let doe := (yoe * 365 + yoe / 4 - yoe / 100 + doy)%Z in
  (era * 146097 + doe - 719468)%Z.

(** The time value of a date-only string [YYYY-MM-DD]. *)
Definition iso_date (s : string) : option Z :=
  match read_digits digit_of 10 s 0%Z 0 with
  | (y, 4%nat, String "-" r1) =>
      match read_digits digit_of 10 r1 0%Z 0 with
      | (m, 2%nat, String "-" r2) =>
          match read_digits digit_of 10 r2 0%Z 0 with
          | (d, 2%nat, EmptyString) =>
              if ((1 <=? m) && (m <=? 12) && (1 <=? d) && (d <=? 31))%Z
              then Some (days_from_civil y m d * 86400000)%Z
              else None
          | _ => None
          end
      | _ => None
      end
  | _ => None
  end.

(** [new Date(v)] for a date-only ISO string, a number of milliseconds
    within the range of time values, [null] and a boolean; every other
    string, and an array or object, is taken for an invalid date, as
    [undefined] is. The hash is a stand-in. *)
Definition example_runtime : Runtime := {|
  Date_value v :=
    match v with
    | Some (JStr s) => iso_date s
    | Some (JNum q) =>
        let t := Z.quot (Qnum q) (Zpos (Qden q)) in
        if (Z.abs t <=? 8640000000000000)%Z then Some t else None
    | Some JNull => Some 0%Z
    | Some (JBool b) => Some (if b then 1 else 0)%Z
    | _ => None
    end;
  bcrypt_hash pw := "$2a$10$" +:+ pw;
  bcrypt_compare pw h := String.eqb h ("$2a$10$" +:+ pw);
  toISOString n := NilZero.string_of_uint (N.to_uint n)
|}.

Section Attempts.
Context `{Runtime}.



End Attempts.

(** ** Data of the examples *)

Definition alice : Session := {| userId := "1709251200000"; username := JStr "alice" |}.
Definition bob : Session := {| userId := "1709251200001"; username := JStr "bob" |}.

(** A call at clock reading [t] that meets no I/O failure. *)
Definition quiet (t : N) : Env :=
  {| now := t; unreadable := fun _ => false; unwritable := fun _ => false |}.

(** A call at clock reading [t] during which no file can be written. *)
Definition read_only (t : N) : Env :=
  {| now := t; unreadable := fun _ => false; unwritable := fun _ => true |}.

(** The store after the server started and before anyone registered. *)
Definition fresh_store : FS := {| users := []; files := ∅ |}.

Definition weight_body (date weight : string) : Json :=
  JObj [("date", JStr date); ("weight", JStr weight)].

Definition weight_entry (id : Z) (date : string) (weight : Q) : Json :=
  JObj [("id", JNum (inject_Z id)); ("date", JStr date); ("weight", JNum weight)].

Definition nutrition_body (date name : string) (calories : Q) : Json :=
  JObj [("date", JStr date); ("type", JStr "lunch"); ("name", JStr name);
        ("calories", JNum calories)].

Definition nutrition_entry (id : Z) (date name : string) (calories : Q) : Json :=
  JObj [("id", JNum (inject_Z id)); ("date", JStr date); ("type", JStr "lunch");
        ("name", JStr name); ("calories", JNum calories); ("protein", JNum 0);
        ("carbs", JNum 0); ("fats", JNum 0)].

(** Alice's store with one weight entry, for 2024-03-01. *)
Definition store_march : FS :=
  {| users := [];
     files := {[ getUserEntriesFile (userId alice)
                 := JArr [weight_entry 1709300000000 "2024-03-01" 80] ]} |}.

(** Alice's store with one nutrition entry, for 2024-03-01. *)
Definition store_lunch : FS :=
  {| users := [];
     files := {[ getUserNutritionFile (userId alice)
                 := JArr [nutrition_entry 1709300000000 "2024-03-01" "rice" 600] ]} |}.

(** A store with a weight entry of Alice and one of Bob. *)
Definition store_two : FS :=
  {| users := [];
     files := {[ getUserEntriesFile (userId alice)
                 := JArr [weight_entry 1709300000000 "2024-03-01" 80];
                 getUserEntriesFile (userId bob)
                 := JArr [weight_entry 1709300000007 "2024-03-02" 64] ]} |}.

(** A store in which alice is registered. *)
Definition store_alice : FS :=
  {| users := [{| u_id := userId alice; u_username := JStr "alice";
                  u_email := JStr ""; u_password := "$2a$10$secret";
                  u_createdAt := "1709251200000" |}];
     files := ∅ |}.

Definition credentials (name pw : string) : Json :=
  JObj [("username", JStr name); ("password", JStr pw)].

(** ** Vocabulary of the further properties *)

(** The five kinds of file a user has, and the kind each protected route
    reads or writes. *)
Inductive Kind : Type :=
| WeightEntries | NutritionEntries | NutritionSettings | DietEntries | DietSettings.

Definition kind_file (k : Kind) (userId : string) : string :=
  match k with
  | WeightEntries => getUserEntriesFile userId
  | NutritionEntries => getUserNutritionFile userId
  | NutritionSettings => getUserNutritionSettingsFile userId
  | DietEntries => dietFile userId
  | DietSettings => dietSettingsFile userId
  end.

Definition kind_of (r : Protected) : Kind :=
  match r with
  | GET_entries | POST_entries _ | DELETE_entries _ => WeightEntries
  | GET_nutrition_entries | POST_nutrition_entries _ | POST_nutrition_entry _
  | DELETE_nutrition_entry _ => NutritionEntries
  | GET_nutrition_settings | POST_nutrition_settings _ => NutritionSettings
  | GET_diet | POST_diet _ | DELETE_diet _ => DietEntries
  | GET_diet_settings | POST_diet_settings _ => DietSettings
  end.

Definition remove_from (c : Collection) (id : string) : Protected :=
  match c with
  | Weight => DELETE_entries id
  | Nutrition => DELETE_nutrition_entry id
  | Diet => DELETE_diet id
  end.

(** No two users of the list have usernames that [===] takes for equal. *)
Fixpoint distinct_usernames (us : list User) : bool :=
  match us with
  | [] => true
  | u :: rest =>
      forallb (fun v => negb (same_username (Some (u_username u)) v)) rest
      && distinct_usernames rest
  end.

(** The weight file of a user is absent or holds an array without [null]. *)
Definition weight_file_sound (fs : FS) (userId : string) : bool :=
  match files fs !! getUserEntriesFile userId with
  | None => true
  | Some (JArr l) => negb (existsb is_null l)
  | Some _ => false
  end.

(** The session of a call is none or that of an id made of digits. *)
Definition issued (c : Call) : bool :=
  match call_session c with
  | Some a => all_digits (userId a)
  | None => true
  end.

Definition is_uncaught (r : Response) : bool :=
  match r with
  | Uncaught => true
  | Resp _ _ => false
  end.

Section Registrations.
Context `{Runtime}.

(** Registrations served one after another, each with the environment it
    meets. *)
Definition register_all (fs : FS) (requests : list (Env * Json)) : FS :=
  fold_left (fun fs r => snd (post_auth_register (fst r) fs (snd r))) requests fs.

End Registrations.

Definition diet_body (date food : string) (calories : Q) : Json :=
  JObj [("date", JStr date); ("meal", JStr "dinner"); ("foodName", JStr food);
        ("calories", JNum calories)].

Definition diet_entry (id : Z) (date food : string) (calories : Q) : Json :=
  JObj [("id", JNum (inject_Z id)); ("date", JStr date); ("meal", JStr "dinner");
        ("foodName", JStr food); ("calories", JNum calories); ("protein", JNum 0);
        ("carbs", JNum 0); ("fats", JNum 0)].

(** Alice's store with one legacy diet entry, for 2024-03-01. *)
Definition store_dinner : FS :=
  {| users := [];
     files := {[ dietFile (userId alice)
                 := JArr [diet_entry 1709300000000 "2024-03-01" "stew" 700] ]} |}.


(** A store in which alice is registered and has one weight entry. *)
Definition store_alice_march : FS :=
  {| users := users store_alice; files := files store_march |}.

(** A call at clock reading [t] during which no file can be read. *)
Definition write_only (t : N) : Env :=
  {| now := t; unreadable := fun _ => true; unwritable := fun _ => false |}.

(** * Properties *)

(** ** The sort *)

Section SortFacts.
Context {A : Type} (cmp : A -> A -> option Z) (key : A -> Z).

Lemma sort_insert_perm (x : A) (l : list A) :
  Permutation (sort_insert cmp x l) (x :: l).
Proof.
  induction l as [|y r IH]; simpl; [reflexivity|].
  destruct (before cmp y x); [|reflexivity].
  rewrite IH. apply perm_swap.
Qed.

Lemma Array_sort_perm (l : list A) : Permutation (Array_sort cmp l) l.
Proof.
  induction l as [|x r IH]; simpl; [constructor|].
  rewrite sort_insert_perm. now constructor.
Qed.


Lemma agrees_perm (l l' : list A) :
  Permutation l l' -> agrees cmp key l -> agrees cmp key l'.
Proof.
  intros P Hl a b Ha Hb. symmetry in P.
  apply Hl; eapply Permutation_in; eassumption.
Qed.

Lemma agrees_tail (x : A) (l : list A) :
  agrees cmp key (x :: l) -> agrees cmp key l.
Proof. intros Hl a b Ha Hb. apply Hl; now right. Qed.

Lemma sort_insert_sorted (x : A) (l : list A) :
  agrees cmp key (x :: l) ->
  StronglySorted (fun a b => (key a <= key b)%Z) l ->
  StronglySorted (fun a b => (key a <= key b)%Z) (sort_insert cmp x l).
Proof.
  intros Hag Hs. induction Hs as [|y r Hr IH Hy]; simpl.
  - repeat constructor.
  - rewrite (Hag y x) by (simpl; auto).
    destruct (Z.ltb_spec (key y) (key x)) as [Hlt|Hge].
    + constructor.
      * apply IH. intros a b Ha Hb. apply Hag; simpl in *; intuition.
      * rewrite List.Forall_forall. intros z Hz.
        apply (Permutation_in _ (sort_insert_perm x r)) in Hz.
        destruct Hz as [<-|Hz]; [lia|].
        rewrite List.Forall_forall in Hy. now apply Hy.
    + constructor; [now constructor|].
      constructor; [assumption|].
      rewrite List.Forall_forall in Hy |- *. intros z Hz.
      specialize (Hy z Hz). lia.
Qed.

Lemma Array_sort_sorted (l : list A) :
  agrees cmp key l ->
  StronglySorted (fun a b => (key a <= key b)%Z) (Array_sort cmp l).
Proof.
  induction l as [|x r IH]; intros Hag; simpl; [constructor|].
  apply sort_insert_sorted.
  - eapply agrees_perm; [|exact Hag].
    constructor. symmetry. apply Array_sort_perm.
  - apply IH. eapply agrees_tail; eauto.
Qed.

Lemma sort_insert_filter (p : Z) (x : A) (l : list A) :
  agrees cmp key (x :: l) ->
  List.filter (fun e => (key e =? p)%Z) (sort_insert cmp x l)
  = List.filter (fun e => (key e =? p)%Z) (x :: l).
Proof.
  induction l as [|y r IH]; intros Hag; [reflexivity|].
  cbn [sort_insert]. rewrite (Hag y x) by (simpl; auto).
  destruct (Z.ltb_spec (key y) (key x)) as [Hlt|Hge]; [|reflexivity].
  cbn [List.filter]. rewrite IH.
  - cbn [List.filter].
    destruct (Z.eqb_spec (key y) p), (Z.eqb_spec (key x) p); try reflexivity; lia.
  - intros a b Ha Hb. apply Hag; simpl in *; intuition.
Qed.

Lemma Array_sort_stable (p : Z) (l : list A) :
  agrees cmp key l ->
  List.filter (fun e => (key e =? p)%Z) (Array_sort cmp l)
  = List.filter (fun e => (key e =? p)%Z) l.
Proof.
  induction l as [|x r IH]; intros Hag; [reflexivity|].
  cbn [Array_sort]. rewrite sort_insert_filter.
  - cbn [List.filter]. rewrite IH by (eapply agrees_tail; eauto). reflexivity.
  - eapply agrees_perm; [|exact Hag].
    constructor. symmetry. apply Array_sort_perm.
Qed.

(** A sorted list is determined by its members of each key, in order: two
    stable sorts of one list agree. *)
Lemma stable_sorted_unique (l1 l2 : list A) :
  StronglySorted (fun a b => (key a <= key b)%Z) l1 ->
  StronglySorted (fun a b => (key a <= key b)%Z) l2 ->
  (forall p, List.filter (fun e => (key e =? p)%Z) l1
             = List.filter (fun e => (key e =? p)%Z) l2) ->
  l1 = l2.
Proof.
  intros H1. revert l2.
  induction H1 as [|x r1 Hr1 IH Hx]; intros l2 H2 Hf.
  - destruct l2 as [|y r2]; [reflexivity|].
    specialize (Hf (key y)). simpl in Hf. now rewrite Z.eqb_refl in Hf.
  - destruct H2 as [|y r2 Hr2 Hy].
    { specialize (Hf (key x)). simpl in Hf. now rewrite Z.eqb_refl in Hf. }
    rewrite List.Forall_forall in Hx, Hy.
    assert (Hxy : key x = key y).
    { apply Z.le_antisymm.
      - assert (Hin : In y (x :: r1)).
        { apply (List.filter_In (fun e => (key e =? key y)%Z)). rewrite Hf.
          simpl. rewrite Z.eqb_refl. now left. }
        destruct Hin as [->|Hin]; [lia|now apply Hx].
      - assert (Hin : In x (y :: r2)).
        { apply (List.filter_In (fun e => (key e =? key x)%Z)). rewrite <- Hf.
          simpl. rewrite Z.eqb_refl. now left. }
        destruct Hin as [->|Hin]; [lia|now apply Hy]. }
    assert (E := Hf (key x)). simpl in E. rewrite <- Hxy, Z.eqb_refl in E.
    injection E as <- E. f_equal. apply IH; [assumption|].
    intros p. destruct (Z.eq_dec (key x) p) as [<-|Hne]; [assumption|].
    specialize (Hf p). simpl in Hf.
    apply Z.eqb_neq in Hne. now rewrite Hne in Hf.
Qed.

(** So the model of the sort is the sort, whatever algorithm the runtime
    has: any sorted arrangement of [l] that keeps ties in their order is
    [Array_sort cmp l]. *)
Lemma Array_sort_unique (l l' : list A) :
  agrees cmp key l ->
  StronglySorted (fun a b => (key a <= key b)%Z) l' ->
  (forall p, List.filter (fun e => (key e =? p)%Z) l'
             = List.filter (fun e => (key e =? p)%Z) l) ->
  l' = Array_sort cmp l.
Proof.
  intros Hag Hs Hf. apply stable_sorted_unique; [assumption| |].
  - now apply Array_sort_sorted.
  - intros p. now rewrite Array_sort_stable.
Qed.

End SortFacts.

(** ** Records ordered by date *)

Section DateOrder.
Context `{Runtime}.

Lemma dated_time (e : Json) : dated e = true -> entry_time e = Some (time_key e).
Proof.
  unfold dated, time_key. destruct (entry_time e); simpl; [reflexivity|].
  rewrite andb_false_r. discriminate.
Qed.

Lemma dated_all (l : list Json) (e : Json) :
  forallb dated l = true -> In e l -> dated e = true.
Proof. rewrite forallb_forall. auto. Qed.

Lemma dated_comparable (l : list Json) :
  forallb dated l = true -> existsb compare_throws l = false.
Proof.
  induction l as [|e r IH]; simpl; [reflexivity|].
  rewrite andb_true_iff. intros [He Hr]. rewrite (IH Hr), orb_false_r.
  unfold dated in He. rewrite andb_true_iff in He.
  now destruct (compare_throws e).
Qed.

Lemma dated_no_null (l : list Json) :
  forallb dated l = true -> existsb is_null l = false.
Proof.
  induction l as [|e r IH]; simpl; [reflexivity|].
  rewrite andb_true_iff. intros [He Hr]. rewrite (IH Hr), orb_false_r.
  unfold dated, compare_throws in He. rewrite andb_true_iff in He.
  now destruct (is_null e).
Qed.

Lemma comparable_sortable (old : list Json) (new : Json) :
  existsb compare_throws old = false ->
  compare_throws new = false ->
  sort_throws (old ++ [new]) = false.
Proof.
  intros Hold Hnew. unfold sort_throws. rewrite existsb_app, Hold. simpl.
  rewrite Hnew. apply andb_false_r.
Qed.

Lemma null_unsortable (old : list Json) (new : Json) :
  existsb is_null old = true -> sort_throws (old ++ [new]) = true.
Proof.
  intros Hold. unfold sort_throws. rewrite existsb_app, length_app.
  apply andb_true_iff. split.
  - destruct old; [discriminate|]. simpl. now rewrite Nat.add_comm.
  - apply orb_true_iff. left. clear new.
    induction old as [|e r IH]; [discriminate|]. simpl in *.
    unfold compare_throws at 1. destruct (is_null e); [reflexivity|].
    simpl in *. rewrite (IH Hold). apply orb_true_r.
Qed.

Lemma dated_sortable (l : list Json) :
  forallb dated l = true -> sort_throws l = false.
Proof.
  intros Hl. unfold sort_throws. rewrite (dated_comparable l Hl).
  apply andb_false_r.
Qed.


Lemma descending_agrees (l : list Json) :
  forallb dated l = true ->
  agrees by_date_descending (fun e => (- time_key e)%Z) l.
Proof.
  intros Hl a b Ha Hb. unfold before, by_date_descending.
  rewrite (dated_time a), (dated_time b) by eauto using dated_all. simpl.
  destruct (Z.ltb_spec (time_key b - time_key a) 0),
    (Z.ltb_spec (- time_key a) (- time_key b)); (reflexivity || lia).
Qed.


Lemma sorted_descending (l : list Json) :
  forallb dated l = true ->
  StronglySorted (fun a b => (- time_key a <= - time_key b)%Z) l -> descending l.
Proof.
  intros Hl Hs. induction Hs as [|e r Hr IH He]; [constructor|].
  simpl in Hl. apply andb_true_iff in Hl as [Hd Hl].
  constructor; [now apply IH|].
  rewrite List.Forall_forall in He |- *. intros z Hz. unfold not_later.
  rewrite (dated_time e Hd), (dated_time z) by eauto using dated_all.
  specialize (He z Hz). simpl in He. lia.
Qed.

Lemma on_day_key (l : list Json) (t : Z) (f : Z -> Z) :
  (forall x y, (f x =? f y)%Z = (x =? y)%Z) ->
  forallb dated l = true ->
  List.filter (on_day t) l = List.filter (fun e => (f (time_key e) =? f t)%Z) l.
Proof.
  intros Hf Hl. apply List.filter_ext_in. intros e He. unfold on_day.
  rewrite (dated_time e) by eauto using dated_all. now rewrite Hf.
Qed.

Lemma dated_perm (l l' : list Json) :
  Permutation l l' -> forallb dated l = true -> forallb dated l' = true.
Proof.
  intros P. rewrite !forallb_forall. intros Hl e He. apply Hl.
  symmetry in P. eapply Permutation_in; eassumption.
Qed.


(** Sorting dated records with the descending comparator. *)
Lemma sort_descending (l : list Json) :
  forallb dated l = true ->
  descending (Array_sort by_date_descending l)
  /\ ties_as_in l (Array_sort by_date_descending l).
Proof.
  intros Hl.
  assert (Hs : forallb dated (Array_sort by_date_descending l) = true).
  { eapply dated_perm; [|exact Hl]. symmetry. apply Array_sort_perm. }
  split.
  - apply sorted_descending; [exact Hs|].
    apply (Array_sort_sorted by_date_descending (fun e => (- time_key e)%Z)).
    apply descending_agrees, Hl.
  - intros t. rewrite !(on_day_key _ t Z.opp).
    + apply (Array_sort_stable by_date_descending (fun e => (- time_key e)%Z)).
      apply descending_agrees, Hl.
    + intros x y. destruct (Z.eqb_spec (- x) (- y)), (Z.eqb_spec x y); (reflexivity || lia).
    + exact Hl.
    + intros x y. destruct (Z.eqb_spec (- x) (- y)), (Z.eqb_spec x y); (reflexivity || lia).
    + exact Hs.
Qed.

End DateOrder.

(** ** Reading and writing files *)

Lemma write_json_ok (env : Env) (fs : FS) (file : string) (v : Json) :
  unwritable env file = false ->
  write_json env fs file v
  = (true, {| users := users fs; files := <[file := v]> (files fs) |}).
Proof. intros Hw. unfold write_json. now rewrite Hw. Qed.

Lemma write_json_fails (env : Env) (fs : FS) (file : string) (v : Json) :
  unwritable env file = true -> write_json env fs file v = (false, fs).
Proof. intros Hw. unfold write_json. now rewrite Hw. Qed.

Lemma read_written (env : Env) (fs : FS) (file : string) (v absent : Json) :
  unreadable env file = false ->
  read_json env {| users := users fs; files := <[file := v]> (files fs) |} file absent = v.
Proof.
  intros Hr. unfold read_json. simpl. now rewrite lookup_insert_eq, Hr.
Qed.

Lemma write_json_keeps (env : Env) (fs : FS) (file other : string) (v : Json) :
  file <> other ->
  files (snd (write_json env fs file v)) !! other = files fs !! other.
Proof.
  intros Hne. unfold write_json. destruct (unwritable env file); simpl; [reflexivity|].
  now rewrite lookup_insert_ne.
Qed.

Lemma write_json_users (env : Env) (fs : FS) (file : string) (v : Json) :
  users (snd (write_json env fs file v)) = users fs.
Proof. unfold write_json. now destruct (unwritable env file). Qed.

(** ** Weight entries: add, then list (C1) *)

Section WeightEntries.
Context `{Runtime}.


End WeightEntries.

(** ** Files of different users (C3) *)

Lemma append_cancel (p x y : string) : p +:+ x = p +:+ y -> x = y.
Proof. induction p as [|c p IH]; simpl; [auto|]. intros E. injection E. auto. Qed.

(** Two ids of digits followed by suffixes that start with no digit. *)
Lemma digits_then_suffix (a b : string) (c d : ascii) (s t : string) :
  all_digits a = true -> all_digits b = true ->
  digit_of c = None -> digit_of d = None ->
  a +:+ String c s = b +:+ String d t -> a = b /\ String c s = String d t.
Proof.
  revert b. induction a as [|x a IH]; intros [|y b] Ha Hb Hc Hd E; simpl in *.
  - auto.
  - injection E as -> _. destruct (digit_of y); congruence.
  - injection E as -> _. destruct (digit_of d); congruence.
  - injection E as -> E. destruct (digit_of y); [|discriminate].
    destruct (IH b Ha Hb Hc Hd E) as [-> ?]. auto.
Qed.

Lemma user_file_shape (userId file : string) :
  In file (user_files userId) ->
  exists (c : ascii) (s : string),
    digit_of c = None /\ file = ENTRIES_DIR +:+ "/" +:+ userId +:+ String c s.
Proof.
  unfold user_files, getUserEntriesFile, getUserNutritionFile,
    getUserNutritionSettingsFile, dietFile, dietSettingsFile.
  simpl. intros [<-|[<-|[<-|[<-|[<-|[]]]]]];
    refine (ex_intro _ _ (ex_intro _ _ (conj _ eq_refl))); reflexivity.
Qed.

Lemma user_files_disjoint (a b f g : string) :
  all_digits a = true -> all_digits b = true -> a <> b ->
  In f (user_files a) -> In g (user_files b) -> f <> g.
Proof.
  intros Ha Hb Hne Hf Hg E.
  apply user_file_shape in Hf as (c & s & Hc & ->).
  apply user_file_shape in Hg as (d & t & Hd & ->).
  apply append_cancel in E. apply (append_cancel "/") in E.
  now destruct (digits_then_suffix a b c d s t Ha Hb Hc Hd E).
Qed.

(** [Date.now().toString()] is made of digits. *)
Lemma string_of_uint_digits (d : Decimal.uint) :
  all_digits (NilEmpty.string_of_uint d) = true.
Proof. induction d; simpl; auto. Qed.

Lemma issued_id_digits (env : Env) : all_digits (Date_now_toString env) = true.
Proof.
  unfold Date_now_toString, NilZero.string_of_uint.
  destruct (N.to_uint (now env)) eqn:E; try reflexivity;
    rewrite <- E at 1; try (rewrite <- E); apply string_of_uint_digits.
Qed.

Section Isolation.
Context `{Runtime}.

Ltac unfold_routes :=
  unfold run_protected, get_entries, post_entries, delete_entries,
    get_nutrition_entries, post_nutrition_entries, post_nutrition_entry,
    delete_nutrition_entry, get_nutrition_settings, post_nutrition_settings,
    get_diet, post_diet, delete_diet, get_diet_settings, post_diet_settings,
    readUserEntries, writeUserEntries, readUserNutrition, writeUserNutrition,
    readUserNutritionSettings, writeUserNutritionSettings.

(** A call of a user writes no file but that user's five, and never
    [users.json]. *)
Lemma run_protected_frame (env : Env) (fs : FS) (u : string) (r : Protected)
  (g : string) :
  ~ In g (user_files u) ->
  files (snd (run_protected env fs u r)) !! g = files fs !! g.
Proof.
  intros Hg.
  assert (W : forall f v, In f (user_files u) ->
                files (snd (write_json env fs f v)) !! g = files fs !! g).
  { intros f v Hf. apply write_json_keeps. intros ->. now apply Hg. }
  destruct r; unfold_routes; simpl;
    repeat match goal with
      | |- context [write_json env fs ?f ?v] =>
          let E := fresh "E" in
          let b := fresh "b" in
          let fs' := fresh "fs'" in
          pose proof (W f v) as E;
          destruct (write_json env fs f v) as [b fs'];
          simpl in E; destruct b
      | |- context [match ?x with _ => _ end] => destruct x
      end; simpl; try reflexivity;
    match goal with E : _ -> _ = _ |- _ => apply E end;
    unfold user_files; simpl; auto 10.
Qed.

Lemma run_protected_users (env : Env) (fs : FS) (u : string) (r : Protected) :
  users (snd (run_protected env fs u r)) = users fs.
Proof.
  destruct r; unfold_routes; simpl;
    repeat match goal with
      | |- context [write_json env fs ?f ?v] =>
          let E := fresh "E" in
          let b := fresh "b" in
          let fs' := fresh "fs'" in
          pose proof (write_json_users env fs f v) as E;
          destruct (write_json env fs f v) as [b fs'];
          simpl in E; destruct b
      | |- context [match ?x with _ => _ end] => destruct x
      end; simpl; try reflexivity; assumption.
Qed.

(** The response to a call of a user depends on no file but that user's
    five. *)
Lemma run_protected_local (env : Env) (fs1 fs2 : FS) (u : string) (q : Protected) :
  (forall g, In g (user_files u) -> files fs1 !! g = files fs2 !! g) ->
  fst (run_protected env fs1 u q) = fst (run_protected env fs2 u q).
Proof.
  intros Hag.
  assert (H1 := Hag (getUserEntriesFile u)).
  assert (H2 := Hag (getUserNutritionFile u)).
  assert (H3 := Hag (getUserNutritionSettingsFile u)).
  assert (H4 := Hag (dietFile u)).
  assert (H5 := Hag (dietSettingsFile u)).
  unfold user_files in *. simpl in H1, H2, H3, H4, H5.
  destruct q; unfold_routes; unfold read_json, write_json;
    rewrite ?H1, ?H2, ?H3, ?H4, ?H5 by auto 10;
    repeat (match goal with
            | |- context [unwritable env ?f] => destruct (unwritable env f)
            | |- context [match ?x with _ => _ end] => destruct x
            end; cbn beta iota);
    reflexivity.
Qed.

Lemma serve_cons (fs : FS) (c : Call) (rest : list Call) :
  serve fs (c :: rest)
  = (fst (protected (call_env c) fs (call_session c) (call_route c))
       :: fst (serve (snd (protected (call_env c) fs (call_session c) (call_route c))) rest),
     snd (serve (snd (protected (call_env c) fs (call_session c) (call_route c))) rest)).
Proof.
  simpl. destruct (protected (call_env c) fs (call_session c) (call_route c)) as [r fs1].
  simpl. now destruct (serve fs1 rest).
Qed.

Lemma protected_frame (env : Env) (fs : FS) (a : Session) (r : Protected) (g : string) :
  ~ In g (user_files (userId a)) ->
  files (snd (protected env fs (Some a) r)) !! g = files fs !! g.
Proof.
  intros Hg. unfold protected. destruct (isAuthenticated (Some a)); [|reflexivity].
  now apply run_protected_frame.
Qed.

Lemma protected_local (env : Env) (fs1 fs2 : FS) (b : Session) (q : Protected) :
  (forall g, In g (user_files (userId b)) -> files fs1 !! g = files fs2 !! g) ->
  fst (protected env fs1 (Some b) q) = fst (protected env fs2 (Some b) q).
Proof.
  intros Hag. unfold protected. destruct (isAuthenticated (Some b)); [|reflexivity].
  now apply run_protected_local.
Qed.

(** C3. For users A and B with different ids (ids are the digit strings
    [register] issues) and whatever calls were made with A's session, on any
    of the routes: the response to any call made with B's session is what it
    would have been had A's calls never been made. That holds for the list
    and get routes of all five collection types in particular, so nothing
    written under A's id is returned to B. *)
Theorem other_users_records_unseen (calls : list Call) (fs : FS) (a b : Session)
  (env : Env) (q : Protected) :
  all_digits (userId a) = true ->
  all_digits (userId b) = true ->
  userId a <> userId b ->
  Forall (fun c => call_session c = Some a) calls ->
  fst (protected env (snd (serve fs calls)) (Some b) q)
  = fst (protected env fs (Some b) q).
Proof.
  intros Ha Hb Hne Hcalls. revert fs.
  induction Hcalls as [|c rest Hc _ IH]; intros fs; [reflexivity|].
  rewrite serve_cons. cbn [snd]. rewrite IH, Hc.
  apply protected_local. intros g Hg. apply protected_frame.
  intros Hg'. exact (user_files_disjoint _ _ g g Ha Hb Hne Hg' Hg eq_refl).
Qed.

End Isolation.

(** ** Settings (C2, C10) *)

Section Settings.
Context `{Runtime}.

Lemma settings_of_goal (body : Json) (f : string) (d : Q) :
  In (f, d) goal_defaults ->
  prop (settings_of body) f
  = Some (json_of_number (or_default (parseFloat (prop body f)) d)).
Proof.
  unfold goal_defaults. simpl.
  intros [E|[E|[E|[E|[]]]]]; injection E as <- <-; reflexivity.
Qed.


(** C10, as the code has it. For every authenticated save of settings, on
    the nutrition route or the legacy diet route, in which a goal is the
    number zero and each of the four goals converts to a string: the save
    succeeds and the goal is stored as its default, as a missing goal
    is. *)
Theorem zero_goal_stored_as_default (legacy : bool) (env env' : Env) (fs : FS)
  (s : Session) (body : Json) (f : string) (d q : Q) :
  let file := if legacy then dietSettingsFile (userId s)
              else getUserNutritionSettingsFile (userId s) in
  let save := if legacy then POST_diet_settings body
              else POST_nutrition_settings body in
  let get := if legacy then GET_diet_settings else GET_nutrition_settings in
  isAuthenticated (Some s) = true ->
  In (f, d) goal_defaults ->
  prop body f = Some (JNum q) ->
  Qeq_bool q 0 = true ->
  settings_throw body = false ->
  unwritable env file = false ->
  unreadable env' file = false ->
  exists (stored : Json),
    failed (fst (protected env fs (Some s) save)) = false
    /\ fst (protected env' (snd (protected env fs (Some s) save)) (Some s) get)
       = Resp 200 stored
    /\ prop stored f = Some (JNum d).
Proof.
  intros file save get Hauth Hf Hzero Hq Hconv Hw Hr.
  exists (settings_of body). unfold protected. rewrite Hauth.
  assert (Hd : prop (settings_of body) f = Some (JNum d)).
  { rewrite (settings_of_goal body f d Hf), Hzero. unfold or_default. simpl.
    now rewrite Hq. }
  destruct legacy; subst file save get; simpl;
    unfold post_diet_settings, post_nutrition_settings, writeUserNutritionSettings,
      get_diet_settings, get_nutrition_settings, readUserNutritionSettings;
    rewrite Hconv;
    rewrite write_json_ok by assumption; simpl;
    rewrite read_written by assumption; auto.
Qed.

End Settings.

(** ** Login (C6) *)

Section Login.
Context `{Runtime}.


End Login.

(** ** Rejected adds (C7) *)

Section Validation.
Context `{Runtime}.

(** C7, as the code has it. For every add of a weight entry whose date or
    weight is missing or falsy ([null], [false], [0], the empty string): the
    add answers 400 with [{error: 'Date and weight are required'}] whatever
    the state of the store and whichever reads and writes would fail, and
    the store is left as it was. *)
Theorem add_rejected_before_storage (env : Env) (fs : FS) (s : Session) (body : Json) :
  isAuthenticated (Some s) = true ->
  truthy (prop body "date") = false \/ truthy (prop body "weight") = false ->
  protected env fs (Some s) (POST_entries body)
  = (Resp 400 (error "Date and weight are required"), fs).
Proof.
  intros Hauth Hbad. unfold protected. rewrite Hauth. simpl. unfold post_entries.
  destruct Hbad as [-> | ->]; simpl; [reflexivity|].
  now rewrite orb_true_r.
Qed.

End Validation.

(** ** Registration and a failing store (C8) *)

Section Registration.
Context `{Runtime}.

(** C8, the defect. A registration with a new username and a password,
    made while [users.json] and the entries file of the new id cannot be
    written, answers 201 [User registered successfully] and leaves the store
    as it was: the user is not persisted, and the caller is told it is. *)
Theorem register_hides_write_failure (env : Env) (fs : FS) (body : Json)
  (pw : string) :
  truthy (prop body "username") = true ->
  prop body "password" = Some (JStr pw) ->
  pw <> "" ->
  find (same_username (prop body "username")) (readUsers env fs) = None ->
  unwritable env USERS_FILE = true ->
  unwritable env (getUserEntriesFile (Date_now_toString env)) = true ->
  post_auth_register env fs body
  = (Resp 201
       (JObj [("message", JStr "User registered successfully");
              ("user", JObj [("id", JStr (Date_now_toString env));
                             ("username", default JNull (prop body "username"))])]),
     fs).
Proof.
  intros Hu Hp Hne Hfind Hw1 Hw2. unfold post_auth_register.
  rewrite Hu, Hp, Hfind. simpl.
  destruct (String.eqb_spec pw ""); [contradiction|]. simpl.
  unfold writeUsers, writeUserEntries. rewrite Hw1. simpl.
  now rewrite write_json_fails.
Qed.

(** X14. A read that fails inside a mutating route is taken for an empty
    collection: an add, of a weight that converts to a string, to a weight
    file that cannot be read answers 201 and replaces what the file held
    with the new entry alone. *)
Lemma add_replaces_unreadable_file (env : Env) (fs : FS) (s : Session) (body : Json) :
  isAuthenticated (Some s) = true ->
  truthy (prop body "date") = true ->
  truthy (prop body "weight") = true ->
  throws (prop body "weight") = false ->
  unreadable env (getUserEntriesFile (userId s)) = true ->
  unwritable env (getUserEntriesFile (userId s)) = false ->
  exists new : Json,
    fst (protected env fs (Some s) (POST_entries body)) = Resp 201 new
    /\ records (snd (protected env fs (Some s) (POST_entries body)))
         (getUserEntriesFile (userId s)) = [new].
Proof.
  intros Hauth Hd Hwt Hconv Hr Hw. unfold protected. rewrite Hauth. simpl.
  unfold post_entries, readUserEntries, read_json, writeUserEntries.
  rewrite Hd, Hwt, Hr. simpl.
  eexists. destruct (files fs !! _); simpl; rewrite Hconv, write_json_ok by assumption;
    (split; [reflexivity|]); unfold records; simpl; now rewrite lookup_insert_eq.
Qed.

(** X15. The other mutating routes do surface a failed write: when none of the user's files
    can be written, no protected call changes the store, and every call
    that is not a read of a list or of settings answers with a failure. *)
Lemma protected_write_failure (env : Env) (fs : FS) (s : Session) (r : Protected) :
  (forall f, In f (user_files (userId s)) -> unwritable env f = true) ->
  snd (protected env fs (Some s) r) = fs
  /\ match r with
     | GET_entries | GET_nutrition_entries | GET_nutrition_settings
     | GET_diet | GET_diet_settings => True
     | _ => failed (fst (protected env fs (Some s) r)) = true
     end.
Proof.
  intros Hw.
  assert (H1 := Hw (getUserEntriesFile (userId s))).
  assert (H2 := Hw (getUserNutritionFile (userId s))).
  assert (H3 := Hw (getUserNutritionSettingsFile (userId s))).
  assert (H4 := Hw (dietFile (userId s))).
  assert (H5 := Hw (dietSettingsFile (userId s))).
  unfold user_files in *. simpl in H1, H2, H3, H4, H5.
  unfold protected. destruct (isAuthenticated (Some s));
    [|destruct r; simpl; auto].
  destruct r;
    unfold run_protected, get_entries, post_entries, delete_entries,
      get_nutrition_entries, post_nutrition_entries, post_nutrition_entry,
      delete_nutrition_entry, get_nutrition_settings, post_nutrition_settings,
      get_diet, post_diet, delete_diet, get_diet_settings, post_diet_settings,
      writeUserEntries, writeUserNutrition, writeUserNutritionSettings, write_json;
    rewrite ?H1, ?H2, ?H3, ?H4, ?H5 by auto 10;
    repeat (match goal with
            | |- context [match ?x with _ => _ end] => destruct x
            end; cbn beta iota);
    simpl; auto.
Qed.

End Registration.

(** ** Order of the nutrition collection (C5) *)

Lemma StronglySorted_keep {A : Type} (R : A -> A -> Prop) (p : A -> bool) (l : list A) :
  StronglySorted R l -> StronglySorted R (List.filter p l).
Proof.
  induction 1 as [|x r Hr IH Hx]; simpl; [constructor|].
  destruct (p x); [|assumption].
  constructor; [assumption|].
  rewrite List.Forall_forall in Hx |- *. intros y Hy.
  apply List.filter_In in Hy as [Hy _]. now apply Hx.
Qed.

Section NutritionOrder.
Context `{Runtime}.

(** C5, as the code has it. For every user whose nutrition collection
    holds records with valid dates, on a store that takes the read and the
    write:
    - after the add of an entry with its required fields, a valid date and
      four numbers that convert to a string, the stored collection is the
      old records and the new entry sorted descending by date, records of
      equal date in the order they had and the new entry after them;
    - after a remove the stored collection is the old one or the old one
      without the records of that id, and is sorted descending if the old
      one was;
    - after a bulk replace the stored collection is the array of the
      request, in the order of the request. *)
Theorem nutrition_order_after_mutation (env : Env) (fs : FS) (s : Session)
  (m : Mutation) (old : list Json) :
  let file := getUserNutritionFile (userId s) in
  let after := records (snd (protected env fs (Some s) (route_of m))) file in
  isAuthenticated (Some s) = true ->
  unwritable env file = false ->
  unreadable env file = false ->
  readUserNutrition env fs (userId s) = JArr old ->
  forallb dated old = true ->
  match m with
  | Add body =>
      truthy (prop body "date") = true ->
      truthy (prop body "type") = true ->
      truthy (prop body "name") = true ->
      prop body "calories" <> None ->
      macros_throw body = false ->
      dated body = true ->
      exists new : Json,
        fst (protected env fs (Some s) (route_of m))
        = Resp 201 (JObj [("success", JBool true);
                          ("message", JStr "Entry added successfully");
                          ("entry", new)])
        /\ prop new "date" = prop body "date"
        /\ descending after
        /\ Permutation after (old ++ [new])
        /\ ties_as_in (old ++ [new]) after
  | Remove id =>
      (after = old \/ after = List.filter (id_differs (parseInt id)) old)
      /\ (descending old -> descending after)
  | ReplaceAll body =>
      forall l, body = JArr l -> after = l
  end.
Proof.
  intros file after Hauth Hw Hr Hread Hold.
  assert (Hrec : records fs file = old).
  { unfold readUserNutrition, read_json in Hread. fold file in Hread.
    unfold records. rewrite Hr in Hread.
    destruct (files fs !! file) as [v|]; [now subst v|]. congruence. }
  destruct m as [body|id|body]; subst after; unfold protected; rewrite Hauth;
    cbn [route_of run_protected snd fst].
  - intros Hd Ht Hn Hc Hconv Hv. unfold post_nutrition_entry.
    rewrite Hd, Ht, Hn, Hread, Hconv.
    destruct (prop body "calories") as [c|] eqn:Ec; [|contradiction].
    replace (strict_eq (Some c) None) with false by now destruct c.
    cbn [negb orb].
    match goal with |- context [Array_sort _ (old ++ [?e])] => set (new := e) end.
    assert (Hnd : prop new "date" = prop body "date").
    { unfold new. simpl. destruct (prop body "date"); [reflexivity|discriminate]. }
    assert (Hall : forallb dated (old ++ [new]) = true).
    { rewrite forallb_app, Hold. simpl. rewrite andb_true_r.
      unfold dated, compare_throws, entry_time in *. rewrite Hnd.
      apply andb_true_iff in Hv as [Hc' ->].
      apply negb_true_iff, orb_false_iff in Hc' as [_ ->]. reflexivity. }
    rewrite (dated_sortable _ Hall).
    unfold writeUserNutrition. fold file.
    rewrite write_json_ok by assumption. cbn [fst snd].
    exists new.
    unfold records. cbn [files]. rewrite lookup_insert_eq.
    repeat split; try assumption.
    + now apply sort_descending.
    + apply Array_sort_perm.
    + now apply sort_descending.
  - unfold delete_nutrition_entry. rewrite Hread, (dated_no_null _ Hold).
    destruct (_ =? _)%nat; cbn [snd].
    + rewrite Hrec. auto.
    + unfold writeUserNutrition. fold file. rewrite write_json_ok by assumption.
      cbn [snd]. unfold records. cbn [files]. rewrite lookup_insert_eq.
      split; [now right|]. apply StronglySorted_keep.
  - intros l ->. unfold post_nutrition_entries, writeUserNutrition. fold file.
    rewrite write_json_ok by assumption. cbn [snd].
    unfold records. cbn [files]. now rewrite lookup_insert_eq.
Qed.

End NutritionOrder.

(** ** Adds in flight together (C9) *)

Section Concurrency.
Context `{Runtime}.





End Concurrency.


(** ** The properties at concrete requests *)

Section Examples.
#[local] Existing Instance example_runtime.

Ltac evaluate := lazymatch goal with |- _ = _ => vm_compute; reflexivity end.





(** Alice adds a weight entry, replaces her nutrition entries and saves
    settings; Bob's list of weight entries is his one entry, as before. *)
Lemma other_users_records_unseen_witness :
  fst (protected (quiet 9)
         (snd (serve store_two
                 [{| call_env := quiet 1; call_session := Some alice;
                     call_route := POST_entries (weight_body "2024-02-01" "79.5") |};
                  {| call_env := quiet 2; call_session := Some alice;
                     call_route := POST_nutrition_entries
                                     (JArr [nutrition_entry 2 "2024-01-01" "rice" 600]) |};
                  {| call_env := quiet 3; call_session := Some alice;
                     call_route := POST_diet_settings (JObj [("calorieGoal", JNum 1)]) |}]))
         (Some bob) GET_entries)
  = Resp 200 (JArr [weight_entry 1709300000007 "2024-03-02" 64]).
Proof.
  rewrite (other_users_records_unseen _ store_two alice bob (quiet 9) GET_entries).
  - evaluate.
  - evaluate.
  - evaluate.
  - vm_compute. discriminate.
  - repeat constructor.
Defined.

(** C4, the defect. Two adds of a weight entry handled within one
    millisecond both answer 201, and the two records carry the same id; a
    delete of that id then removes both. *)
Lemma ids_collide_within_a_millisecond :
  let first := protected (quiet 1709400000000) store_march (Some alice)
                 (POST_entries (weight_body "2024-02-01" "79.5")) in
  let second := protected (quiet 1709400000000) (snd first) (Some alice)
                  (POST_entries (weight_body "2024-02-02" "79")) in
  let removal := protected (quiet 1709400000005) (snd second) (Some alice)
                   (DELETE_entries "1709400000000") in
  created (fst first) = true
  /\ created (fst second) = true
  /\ map (fun e => prop e "id")
       (records (snd second) (getUserEntriesFile (userId alice)))
     = [Some (JNum 1709400000000); Some (JNum 1709400000000);
        Some (JNum 1709300000000)]
  /\ records (snd removal) (getUserEntriesFile (userId alice))
     = [weight_entry 1709300000000 "2024-03-01" 80].
Proof. repeat split; vm_compute; reflexivity. Qed.

(** An add to a collection that holds an entry of a later date. *)
Lemma nutrition_order_after_mutation_witness :
  descending
    (records
       (snd (protected (quiet 1709400000000) store_lunch (Some alice)
               (POST_nutrition_entry (nutrition_body "2024-03-05" "soup" 250))))
       (getUserNutritionFile (userId alice))).
Proof.
  destruct (nutrition_order_after_mutation (quiet 1709400000000) store_lunch alice
              (Add (nutrition_body "2024-03-05" "soup" 250))
              [nutrition_entry 1709300000000 "2024-03-01" "rice" 600])
    as (new & _ & _ & Hdesc & _); try evaluate.
  - discriminate.
  - exact Hdesc.
Defined.

(** Against C5 as stated: a bulk replace with two entries in ascending
    order answers 200, and the stored collection is in ascending order. *)
Lemma bulk_replace_keeps_request_order :
  fst (protected (quiet 1) fresh_store (Some alice)
         (POST_nutrition_entries
            (JArr [nutrition_entry 1 "2024-01-01" "rice" 600;
                   nutrition_entry 2 "2024-02-01" "soup" 250])))
  = Resp 200 (JObj [("success", JBool true);
                    ("message", JStr "Entries saved successfully");
                    ("count", JNum 2)])
  /\ ~ descending
       (records
          (snd (protected (quiet 1) fresh_store (Some alice)
                  (POST_nutrition_entries
                     (JArr [nutrition_entry 1 "2024-01-01" "rice" 600;
                            nutrition_entry 2 "2024-02-01" "soup" 250]))))
          (getUserNutritionFile (userId alice))).
Proof.
  split; [vm_compute; reflexivity|].
  intros Hdesc.
  assert (E : records
                (snd (protected (quiet 1) fresh_store (Some alice)
                        (POST_nutrition_entries
                           (JArr [nutrition_entry 1 "2024-01-01" "rice" 600;
                                  nutrition_entry 2 "2024-02-01" "soup" 250]))))
                (getUserNutritionFile (userId alice))
              = [nutrition_entry 1 "2024-01-01" "rice" 600;
                 nutrition_entry 2 "2024-02-01" "soup" 250])
    by (vm_compute; reflexivity).
  rewrite E in Hdesc. inversion Hdesc as [|? ? _ Hfirst]; subst.
  inversion Hfirst as [|? ? Hle _]; subst.
  vm_compute in Hle. now apply Hle.
Qed.



(** An add without a weight, while nothing can be read or written. *)
Lemma add_rejected_before_storage_witness :
  protected (read_only 1) store_march (Some alice)
    (POST_entries (JObj [("date", JStr "2024-02-01")]))
  = (Resp 400 (error "Date and weight are required"), store_march).
Proof.
  apply add_rejected_before_storage; [evaluate|right; evaluate].
Defined.

(** Against C7 as stated: an add with the weight ["abc"], which is no
    number, answers 201 and the entry is stored, with weight [null]. *)
Lemma non_numeric_weight_accepted :
  parseFloat (prop (weight_body "2024-02-01" "abc") "weight") = NaN
  /\ fst (protected (quiet 5) fresh_store (Some alice)
            (POST_entries (weight_body "2024-02-01" "abc")))
     = Resp 201 (JObj [("id", JNum 5); ("date", JStr "2024-02-01"); ("weight", JNull)])
  /\ records (snd (protected (quiet 5) fresh_store (Some alice)
                     (POST_entries (weight_body "2024-02-01" "abc"))))
       (getUserEntriesFile (userId alice))
     = [JObj [("id", JNum 5); ("date", JStr "2024-02-01"); ("weight", JNull)]].
Proof. repeat split; vm_compute; reflexivity. Qed.

(** A registration while nothing can be written. *)
Lemma register_hides_write_failure_witness :
  post_auth_register (read_only 1709251200000) fresh_store (credentials "alice" "secret")
  = (Resp 201
       (JObj [("message", JStr "User registered successfully");
              ("user", JObj [("id", JStr "1709251200000"); ("username", JStr "alice")])]),
     fresh_store).
Proof.
  apply (register_hides_write_failure (read_only 1709251200000) fresh_store
           (credentials "alice" "secret") "secret"); try evaluate.
  discriminate.
Defined.


(** A calorie goal of zero on the nutrition route. *)
Lemma zero_goal_stored_as_default_witness :
  exists stored : Json,
    fst (protected (quiet 2)
           (snd (protected (quiet 1) fresh_store (Some alice)
                   (POST_nutrition_settings (JObj [("calorieGoal", JNum 0)]))))
           (Some alice) GET_nutrition_settings)
    = Resp 200 stored
    /\ prop stored "calorieGoal" = Some (JNum 2000).
Proof.
  destruct (zero_goal_stored_as_default false (quiet 1) (quiet 2) fresh_store alice
              (JObj [("calorieGoal", JNum 0)]) "calorieGoal" 2000%Q 0%Q)
    as (stored & _ & Hget & Hgoal); try evaluate.
  - simpl. auto.
  - exists stored. auto.
Defined.

(** Against C10 as stated: a save with calorie goal 0 and a protein goal
    that does not convert to a string throws, and the calorie goal stored
    by the save before it, 1800, stays. *)
Lemma unconvertible_goal_keeps_stored :
  let first := protected (quiet 1) fresh_store (Some alice)
                 (POST_nutrition_settings (JObj [("calorieGoal", JNum 1800)])) in
  let second := protected (quiet 2) (snd first) (Some alice)
                  (POST_nutrition_settings
                     (JObj [("calorieGoal", JNum 0);
                            ("proteinGoal", JObj [("toString", JNum 1)])])) in
  fst second = Uncaught
  /\ fst (protected (quiet 3) (snd second) (Some alice) GET_nutrition_settings)
     = Resp 200 (JObj [("calorieGoal", JNum 1800); ("proteinGoal", JNum 150);
                       ("carbsGoal", JNum 200); ("fatsGoal", JNum 65)]).
Proof. split; vm_compute; reflexivity. Qed.

End Examples.

(** * Further properties *)

(** ** Registration, login and the list of users *)

Lemma strict_eq_sym (a b : option Json) : strict_eq a b = strict_eq b a.
Proof.
  destruct a as [[| x | x | x | |]|], b as [[| y | y | y | |]|]; simpl; try reflexivity.
  - now destruct x, y.
  - unfold Qeq_bool. apply Z.eqb_sym.
  - apply String.eqb_sym.
Qed.



Section Accounts.
Context `{Runtime}.

(** What a registration that is accepted does to the store. *)
Lemma register_accepted (env : Env) (fs : FS) (body : Json) (name : Json) (pw : string) :
  prop body "username" = Some name ->
  truthy (Some name) = true ->
  prop body "password" = Some (JStr pw) ->
  pw <> "" ->
  find (same_username (Some name)) (readUsers env fs) = None ->
  let newUser :=
    {| u_id := Date_now_toString env; u_username := name;
       u_email := if truthy (prop body "email")
                  then default JNull (prop body "email") else JStr "";
       u_password := bcrypt_hash pw; u_createdAt := toISOString (now env) |} in
  post_auth_register env fs body
  = (Resp 201
       (JObj [("message", JStr "User registered successfully");
              ("user", JObj [("id", JStr (Date_now_toString env)); ("username", name)])]),
     snd (writeUserEntries env
            (snd (writeUsers env fs (readUsers env fs ++ [newUser])%list))
            (Date_now_toString env) (JArr []))).
Proof.
  intros Hu Ht Hp Hne Hfind newUser. unfold post_auth_register.
  rewrite Hu, Ht, Hp, Hfind. simpl.
  destruct (String.eqb_spec pw ""); [contradiction|]. reflexivity.
Qed.



Lemma distinct_usernames_snoc (us : list User) (u : User) :
  distinct_usernames us = true ->
  find (same_username (Some (u_username u))) us = None ->
  distinct_usernames (us ++ [u]) = true.
Proof.
  induction us as [|v rest IH]; simpl; [reflexivity|].
  rewrite andb_true_iff. intros [Hv Hrest] Hfind.
  destruct (same_username (Some (u_username u)) v) eqn:E; [discriminate|].
  rewrite (IH Hrest Hfind), andb_true_r.
  rewrite forallb_app, Hv. simpl. rewrite andb_true_r.
  unfold same_username in *. now rewrite strict_eq_sym, E.
Qed.

Lemma register_keeps_distinct (env : Env) (fs : FS) (body : Json) :
  distinct_usernames (users fs) = true ->
  distinct_usernames (users (snd (post_auth_register env fs body))) = true.
Proof.
  intros Hd. unfold post_auth_register.
  destruct (negb (truthy (prop body "username")) || negb (truthy (prop body "password")))
    eqn:Ev; [exact Hd|].
  destruct (find _ (readUsers env fs)) eqn:Hfind; [exact Hd|].
  destruct (prop body "password") as [[| | |pw| |]|]; try exact Hd.
  cbn [snd]. unfold writeUserEntries. rewrite write_json_users.
  unfold writeUsers. destruct (unwritable env USERS_FILE); [exact Hd|].
  cbn [snd users]. apply distinct_usernames_snoc.
  - unfold readUsers. now destruct (unreadable env USERS_FILE).
  - cbn [u_username]. destruct (prop body "username") as [name|]; [exact Hfind|].
    discriminate.
Qed.

(** X3. The register route keeps the usernames of [users.json] distinct:
    from a list of users in which no two usernames are equal under [===],
    no sequence of registrations, whatever their bodies and whatever reads
    and writes fail, reaches a list with two equal usernames. *)
Theorem registrations_keep_usernames_distinct (fs : FS) (requests : list (Env * Json)) :
  distinct_usernames (users fs) = true ->
  distinct_usernames (users (register_all fs requests)) = true.
Proof.
  revert fs. induction requests as [|[env body] rest IH]; intros fs Hd; [exact Hd|].
  apply IH. now apply register_keeps_distinct.
Qed.

(** X5. While [users.json] cannot be read the list of users is taken for
    empty: every login with a username and a password answers 401
    [Invalid credentials], and a registration that can be written answers
    201 and replaces the list of users with the new user alone. *)
Theorem unreadable_users_file (env : Env) (fs : FS) (session : option Session)
  (body : Json) (name : Json) (pw : string) :
  prop body "username" = Some name ->
  truthy (Some name) = true ->
  prop body "password" = Some (JStr pw) ->
  pw <> "" ->
  unreadable env USERS_FILE = true ->
  unwritable env USERS_FILE = false ->
  post_auth_login env fs session body
  = (Resp 401 (error "Invalid credentials"), session)
  /\ created (fst (post_auth_register env fs body)) = true
  /\ map u_username (users (snd (post_auth_register env fs body))) = [name].
Proof.
  intros Hu Hn Hp Hpw Hr Hw.
  assert (Hq : truthy (Some (JStr pw)) = true).
  { simpl. now destruct (String.eqb_spec pw ""). }
  assert (Hus : readUsers env fs = []) by (unfold readUsers; now rewrite Hr).
  split; [|split].
  - unfold post_auth_login. rewrite Hu, Hn, Hp, Hq, Hus. reflexivity.
  - rewrite (register_accepted env fs body name pw Hu Hn Hp Hpw); [reflexivity|].
    now rewrite Hus.
  - rewrite (register_accepted env fs body name pw Hu Hn Hp Hpw)
      by now rewrite Hus.
    cbn [snd]. unfold writeUserEntries. rewrite write_json_users.
    unfold writeUsers. rewrite Hw, Hus. reflexivity.
Qed.

End Accounts.

Section SharedId.
Context `{Runtime}.

(** X4. The id of a new user is the clock reading, and the register
    route does not look whether a user has it already. A registration that
    is accepted and written in the millisecond in which an existing user
    was registered leaves that user in the list, gives the new user the same
    id, and empties the weight file of that id, which the two then share. *)
Theorem register_reuses_id_of_the_millisecond (env : Env) (fs : FS) (body : Json)
  (name pw : string) (u : User) :
  prop body "username" = Some (JStr name) ->
  prop body "password" = Some (JStr pw) ->
  name <> "" ->
  pw <> "" ->
  find (same_username (Some (JStr name))) (readUsers env fs) = None ->
  In u (readUsers env fs) ->
  u_id u = Date_now_toString env ->
  unwritable env USERS_FILE = false ->
  unwritable env (getUserEntriesFile (u_id u)) = false ->
  let after := post_auth_register env fs body in
  fst after
  = Resp 201
      (JObj [("message", JStr "User registered successfully");
             ("user", JObj [("id", JStr (u_id u)); ("username", JStr name)])])
  /\ In u (users (snd after))
  /\ (exists v : User,
         In v (users (snd after)) /\ u_username v = JStr name /\ u_id v = u_id u
         /\ u_username v <> u_username u)
  /\ files (snd after) !! getUserEntriesFile (u_id u) = Some (JArr []).
Proof.
  intros Hu Hp Hname Hpw Hfind Hin Hid Hw1 Hw2 after. subst after.
  assert (Hn : truthy (Some (JStr name)) = true).
  { simpl. now destruct (String.eqb_spec name ""). }
  rewrite (register_accepted env fs body (JStr name) pw Hu Hn Hp Hpw Hfind).
  cbn [fst snd]. rewrite Hid in *.
  unfold writeUserEntries. rewrite write_json_ok by assumption.
  unfold writeUsers. rewrite Hw1. cbn [snd users files].
  split; [reflexivity|]. split; [apply in_or_app; now left|]. split.
  - eexists. split; [apply in_or_app; right; now left|].
    cbn [u_username u_id]. repeat split.
    intros E. apply (find_none _ _ Hfind) in Hin.
    unfold same_username in Hin. rewrite <- E in Hin. simpl in Hin.
    now rewrite String.eqb_refl in Hin.
  - apply lookup_insert_eq.
Qed.

End SharedId.

(** ** Removing records *)




Lemma filter_no_null (p : Json -> bool) (l : list Json) :
  existsb is_null l = false -> existsb is_null (List.filter p l) = false.
Proof.
  induction l as [|x r IH]; simpl; [reflexivity|].
  rewrite orb_false_iff. intros [Hx Hr]. destruct (p x); simpl; [|auto].
  now rewrite Hx, IH.
Qed.

Section Removal.
Context `{Runtime}.



(** X7. A delete on a collection whose file is missing or cannot be read
    never changes the store, and the three routes answer differently: the
    weight and nutrition routes take the collection for empty and answer
    404 [Entry not found]; the legacy diet route answers 404 [No entries
    found] for a missing file and 500 [Failed to delete entry] for a file it
    cannot read. *)
Theorem delete_without_a_readable_file (c : Collection) (env : Env) (fs : FS)
  (s : Session) (p : string) :
  isAuthenticated (Some s) = true ->
  files fs !! collection_file c (userId s) = None
  \/ unreadable env (collection_file c (userId s)) = true ->
  protected env fs (Some s) (remove_from c p)
  = (match c, files fs !! collection_file c (userId s) with
     | Diet, None => Resp 404 (error "No entries found")
     | Diet, Some _ => Resp 500 (error "Failed to delete entry")
     | _, _ => Resp 404 (error "Entry not found")
     end, fs).
Proof.
  intros Hauth Hbad. unfold protected. rewrite Hauth.
  destruct c; cbn [remove_from run_protected collection_file] in *;
    unfold delete_entries, delete_nutrition_entry, delete_diet, readUserEntries,
      readUserNutrition, read_json;
    destruct Hbad as [-> | Hr]; try reflexivity;
    rewrite Hr; destruct (files fs !! _); reflexivity.
Qed.

End Removal.

(** ** Calories that are present and falsy *)

Lemma falsy_reads_as_zero (c : Json) :
  truthy (Some c) = false -> or_default (parseFloat (Some c)) 0 = Num 0.
Proof.
  destruct c as [| [] | q | s | |]; simpl; try discriminate; try reflexivity.
  - unfold or_default. simpl. now intros ->%negb_false_iff.
  - destruct s; [reflexivity|discriminate].
Qed.

Section Calories.
Context `{Runtime}.

(** X8. For an add whose calories are present and falsy ([0], [null],
    [false], the empty string) the two add routes part ways: the nutrition
    route, which tests [calories === undefined], accepts it and stores the
    entry with calories 0, when the other numbers and the dates of the
    records convert; the legacy diet route, which tests [!calories],
    answers 400 [Required fields missing] and leaves the store as it is. *)
Theorem falsy_calories (env : Env) (fs : FS) (s : Session) (body c : Json)
  (old : list Json) :
  isAuthenticated (Some s) = true ->
  prop body "calories" = Some c ->
  truthy (Some c) = false ->
  truthy (prop body "date") = true ->
  truthy (prop body "type") = true ->
  truthy (prop body "name") = true ->
  macros_throw body = false ->
  throws (prop body "date") = false ->
  readUserNutrition env fs (userId s) = JArr old ->
  existsb compare_throws old = false ->
  unwritable env (getUserNutritionFile (userId s)) = false ->
  (exists entry : Json,
      fst (protected env fs (Some s) (POST_nutrition_entry body))
      = Resp 201 (JObj [("success", JBool true);
                        ("message", JStr "Entry added successfully");
                        ("entry", entry)])
      /\ prop entry "calories" = Some (JNum 0)
      /\ In entry (records (snd (protected env fs (Some s) (POST_nutrition_entry body)))
                    (getUserNutritionFile (userId s))))
  /\ protected env fs (Some s) (POST_diet body)
     = (Resp 400 (error "Required fields missing"), fs).
Proof.
  intros Hauth Hc Hfalsy Hd Ht Hn Hconv Hdate Hread Hold Hw.
  unfold protected. rewrite Hauth.
  cbn [run_protected]. split.
  - unfold post_nutrition_entry. rewrite Hd, Ht, Hn, Hc, Hread, Hconv.
    replace (strict_eq (Some c) None) with false by now destruct c.
    cbn [negb orb]. rewrite (falsy_reads_as_zero c Hfalsy).
    rewrite comparable_sortable;
      [|exact Hold
       |unfold compare_throws; simpl;
        destruct (prop body "date"); [exact Hdate|discriminate Hd]].
    unfold writeUserNutrition. rewrite write_json_ok by assumption.
    cbn [fst snd].
    eexists. split; [reflexivity|]. split.
    + reflexivity.
    + unfold records. cbn [files]. rewrite lookup_insert_eq.
      apply (Permutation_in _ (Permutation_sym (Array_sort_perm _ _))).
      apply in_or_app. right. now left.
  - unfold post_diet. rewrite Hc, Hfalsy. cbn [negb]. now rewrite !orb_true_r.
Qed.

End Calories.

(** ** The collections of one user *)

Lemma kind_file_inj (u : string) (k1 k2 : Kind) :
  kind_file k1 u = kind_file k2 u -> k1 = k2.
Proof.
  intros E.
  assert (S : forall x y, kind_file k1 u = ENTRIES_DIR +:+ "/" +:+ u +:+ x ->
                          kind_file k2 u = ENTRIES_DIR +:+ "/" +:+ u +:+ y -> x = y).
  { intros x y E1 E2. rewrite E1, E2 in E.
    apply append_cancel in E. apply (append_cancel "/") in E.
    now apply append_cancel in E. }
  destruct k1, k2; try reflexivity;
    match goal with
    | |- ?a = ?b =>
        exfalso;
        unfold kind_file, getUserEntriesFile, getUserNutritionFile,
          getUserNutritionSettingsFile, dietFile, dietSettingsFile in S;
        specialize (S _ _ eq_refl eq_refl); discriminate S
    end.
Qed.

Section Collections.
Context `{Runtime}.

Ltac unfold_handlers :=
  unfold run_protected, get_entries, post_entries, delete_entries,
    get_nutrition_entries, post_nutrition_entries, post_nutrition_entry,
    delete_nutrition_entry, get_nutrition_settings, post_nutrition_settings,
    get_diet, post_diet, delete_diet, get_diet_settings, post_diet_settings,
    readUserEntries, writeUserEntries, readUserNutrition, writeUserNutrition,
    readUserNutritionSettings, writeUserNutritionSettings.

(** A call writes no file but the one of its kind. *)
Lemma run_protected_writes_its_kind (env : Env) (fs : FS) (u : string) (r : Protected)
  (g : string) :
  g <> kind_file (kind_of r) u ->
  files (snd (run_protected env fs u r)) !! g = files fs !! g.
Proof.
  intros Hg.
  assert (W : forall v, files (snd (write_json env fs (kind_file (kind_of r) u) v)) !! g
                        = files fs !! g).
  { intros v. apply write_json_keeps. congruence. }
  destruct r; cbn [kind_of kind_file] in W; unfold_handlers; simpl;
    repeat match goal with
      | |- context [write_json env fs ?f ?v] =>
          let E := fresh "E" in
          let b := fresh "b" in
          let fs' := fresh "fs'" in
          pose proof (W v) as E;
          destruct (write_json env fs f v) as [b fs'];
          simpl in E; destruct b
      | |- context [match ?x with _ => _ end] => destruct x
      end; simpl; try reflexivity; assumption.
Qed.

(** The response to a call depends on no file but the one of its kind. *)
Lemma run_protected_reads_its_kind (env : Env) (fs1 fs2 : FS) (u : string)
  (q : Protected) :
  files fs1 !! kind_file (kind_of q) u = files fs2 !! kind_file (kind_of q) u ->
  fst (run_protected env fs1 u q) = fst (run_protected env fs2 u q).
Proof.
  intros Hag.
  destruct q; cbn [kind_of kind_file] in Hag; unfold_handlers;
    unfold read_json, write_json; rewrite ?Hag;
    repeat (match goal with
            | |- context [unwritable env ?f] => destruct (unwritable env f)
            | |- context [match ?x with _ => _ end] => destruct x
            end; cbn beta iota);
    reflexivity.
Qed.

(** X10. The five collections of a user are independent: a call on a route
    of one kind (weight entries, nutrition entries, nutrition settings, diet
    entries, diet settings) changes nothing in the response to a later call
    of the same user on a route of another kind, whatever the bodies and
    whatever reads and writes fail. *)
Theorem collections_independent (env env' : Env) (fs : FS) (s : Session)
  (r q : Protected) :
  kind_of r <> kind_of q ->
  fst (protected env' (snd (protected env fs (Some s) r)) (Some s) q)
  = fst (protected env' fs (Some s) q).
Proof.
  intros Hne. unfold protected.
  destruct (isAuthenticated (Some s)); [|reflexivity].
  apply run_protected_reads_its_kind, run_protected_writes_its_kind.
  intros E. apply kind_file_inj in E. congruence.
Qed.

End Collections.

(** ** The weight file never makes a route throw *)

Lemma existsb_perm {A : Type} (p : A -> bool) (l l' : list A) :
  Permutation l l' -> existsb p l = existsb p l'.
Proof.
  induction 1 as [|x l l' _ IH|x y l|l l' l'' _ IH1 _ IH2]; simpl.
  - reflexivity.
  - now rewrite IH.
  - now destruct (p x), (p y).
  - now rewrite IH1.
Qed.

Section WeightFile.
Context `{Runtime}.

Lemma weight_routes_keep_sound (env : Env) (fs : FS) (u : string) (r : Protected) :
  kind_of r = WeightEntries ->
  weight_file_sound fs u = true ->
  weight_file_sound (snd (run_protected env fs u r)) u = true
  /\ match r with
     | POST_entries body =>
         throws (prop body "weight") = false ->
         throws (prop body "date") = false ->
         (forall e, In e (records fs (getUserEntriesFile u)) ->
                    throws (prop e "date") = false) ->
         is_uncaught (fst (run_protected env fs u r)) = false
     | _ => is_uncaught (fst (run_protected env fs u r)) = false
     end.
Proof.
  intros Hk Hs. pose proof Hs as Hs'. unfold weight_file_sound in Hs |- *.
  unfold records. set (f := getUserEntriesFile u) in *.
  assert (Hread : exists l,
             match files fs !! f with
             | Some v => if unreadable env f then JArr [] else v
             | None => JArr []
             end = JArr l
             /\ existsb is_null l = false
             /\ forall e, In e l ->
                  In e match files fs !! f with Some (JArr l) => l | _ => [] end).
  { destruct (files fs !! f) as [[| | | |l|]|]; try discriminate Hs;
      destruct (unreadable env f); eexists; (split; [reflexivity|]);
      (split; [|intros e He; first [exact He | destruct He]]);
      try reflexivity; now apply negb_true_iff in Hs. }
  destruct Hread as (l & Hread & Hl & Hin).
  destruct r; try discriminate Hk; cbn [run_protected fst snd].
  - auto.
  - unfold post_entries, readUserEntries, read_json, writeUserEntries, write_json.
    fold f. rewrite Hread.
    destruct (negb _ || negb _) eqn:Hvalid; [auto|].
    apply orb_false_iff in Hvalid as [Hdate _].
    match goal with |- context [sort_throws (l ++ [?e])] => set (new := e) end.
    assert (Hnew : prop new "date" = prop body "date").
    { unfold new. simpl. destruct (prop body "date"); [reflexivity|discriminate]. }
    split.
    + destruct (throws (prop body "weight")); [exact Hs|].
      destruct (sort_throws (l ++ [new])); [exact Hs|].
      destruct (unwritable env f); cbn [snd]; [exact Hs|].
      cbn [files]. rewrite lookup_insert_eq.
      rewrite (existsb_perm _ _ _ (Array_sort_perm _ _)), existsb_app, Hl.
      reflexivity.
    + intros Hweight Hbody Hstored. rewrite Hweight.
      rewrite comparable_sortable.
      * now destruct (unwritable env f).
      * clear Hread. induction l as [|e r IH]; [reflexivity|].
        simpl in Hl. apply orb_false_iff in Hl as [He Hr].
        simpl. unfold compare_throws at 1.
        rewrite He, (Hstored e (Hin e (or_introl eq_refl))). simpl.
        apply IH; [exact Hr|]. intros x Hx. apply Hin. now right.
      * unfold compare_throws. now rewrite Hnew, Hbody.
  - unfold delete_entries, readUserEntries, read_json, writeUserEntries, write_json.
    fold f. rewrite Hread, Hl.
    destruct (_ =? _)%nat; [auto|].
    destruct (unwritable env f); cbn [fst snd]; [auto|].
    split; [|reflexivity]. cbn [files]. rewrite lookup_insert_eq.
    now rewrite filter_no_null.
Qed.

Lemma call_keeps_weight_file_sound (env : Env) (fs : FS) (a : option Session)
  (r : Protected) (u : string) :
  all_digits u = true ->
  match a with Some x => all_digits (userId x) | None => true end = true ->
  weight_file_sound fs u = true ->
  weight_file_sound (snd (protected env fs a r)) u = true.
Proof.
  intros Hu Ha Hs. unfold protected.
  destruct a as [x|]; [|exact Hs].
  destruct (isAuthenticated (Some x)); [|exact Hs].
  destruct (String.eq_dec (userId x) u) as [->|Hne].
  - destruct (kind_of r) eqn:Hk;
      try (now apply (weight_routes_keep_sound env fs u r Hk));
      unfold weight_file_sound;
      rewrite (run_protected_writes_its_kind env fs u r)
        by (rewrite Hk; intros E; apply (kind_file_inj u WeightEntries) in E;
            discriminate E);
      exact Hs.
  - unfold weight_file_sound. rewrite run_protected_frame; [exact Hs|].
    intros Hin.
    apply (user_files_disjoint (userId x) u (getUserEntriesFile u) (getUserEntriesFile u)
             Ha Hu Hne Hin); [|reflexivity].
    unfold user_files. simpl. auto.
Qed.

(** X11. The weight routes keep their file sound. From a store in which a
    user's weight file is missing or holds an array without [null] (as the
    file [register] writes does), after any calls on any protected routes
    by sessions of issued ids, with any bodies and any failing reads and
    writes, the file is still so. No list and no delete of that user on
    the weight routes then ends in an uncaught exception, and no add does
    whose weight and date convert to a string, when the dates of the
    stored records do. *)
Theorem weight_file_stays_sound (calls : list Call) (fs : FS) (s : Session)
  (env : Env) (r : Protected) :
  all_digits (userId s) = true ->
  forallb issued calls = true ->
  weight_file_sound fs (userId s) = true ->
  kind_of r = WeightEntries ->
  weight_file_sound (snd (serve fs calls)) (userId s) = true
  /\ match r with
     | POST_entries body =>
         throws (prop body "weight") = false ->
         throws (prop body "date") = false ->
         (forall e, In e (records (snd (serve fs calls)) (getUserEntriesFile (userId s))) ->
                    throws (prop e "date") = false) ->
         is_uncaught (fst (protected env (snd (serve fs calls)) (Some s) r)) = false
     | _ => is_uncaught (fst (protected env (snd (serve fs calls)) (Some s) r)) = false
     end.
Proof.
  intros Hu Hcalls Hs Hk.
  assert (Hafter : weight_file_sound (snd (serve fs calls)) (userId s) = true).
  { revert fs Hs. induction calls as [|c rest IH]; intros fs Hs; [exact Hs|].
    simpl in Hcalls. apply andb_true_iff in Hcalls as [Hc Hrest].
    rewrite serve_cons. cbn [snd]. apply (IH Hrest).
    apply call_keeps_weight_file_sound; assumption. }
  split; [exact Hafter|].
  destruct (weight_routes_keep_sound env (snd (serve fs calls)) (userId s) r Hk Hafter)
    as [_ Hrun].
  unfold protected.
  destruct r; try discriminate Hk;
    destruct (isAuthenticated (Some s)); try reflexivity; exact Hrun.
Qed.

End WeightFile.

(** ** A bulk save with a [null] record; the legacy diet add *)

Section BulkAndDiet.
Context `{Runtime}.

(** X12. A bulk save stores whatever array it is sent. After one with a
    [null] among its records, the list route returns the array as sent,
    while every add with its required fields and every delete on the
    nutrition collection end in an uncaught exception (their callbacks read
    a property of [null]) and leave the store as it is. *)
Theorem null_record_blocks_nutrition (env0 env : Env) (fs : FS) (s : Session)
  (l : list Json) (body : Json) (p : string) :
  let saved := snd (protected env0 fs (Some s) (POST_nutrition_entries (JArr l))) in
  isAuthenticated (Some s) = true ->
  existsb is_null l = true ->
  unwritable env0 (getUserNutritionFile (userId s)) = false ->
  unreadable env (getUserNutritionFile (userId s)) = false ->
  truthy (prop body "date") = true ->
  truthy (prop body "type") = true ->
  truthy (prop body "name") = true ->
  prop body "calories" <> None ->
  failed (fst (protected env0 fs (Some s) (POST_nutrition_entries (JArr l)))) = false
  /\ protected env saved (Some s) GET_nutrition_entries = (Resp 200 (JArr l), saved)
  /\ protected env saved (Some s) (POST_nutrition_entry body) = (Uncaught, saved)
  /\ protected env saved (Some s) (DELETE_nutrition_entry p) = (Uncaught, saved).
Proof.
  intros saved Hauth Hnull Hw Hr Hd Ht Hn Hc. subst saved. unfold protected.
  rewrite Hauth. cbn [run_protected].
  unfold post_nutrition_entries, writeUserNutrition.
  rewrite write_json_ok by assumption. cbn [fst snd].
  set (saved := {| users := users fs; files := _ |}).
  assert (Hread : readUserNutrition env saved (userId s) = JArr l).
  { unfold readUserNutrition, saved. now rewrite read_written. }
  repeat split.
  - unfold get_nutrition_entries. now rewrite Hread.
  - unfold post_nutrition_entry. rewrite Hd, Ht, Hn, Hread.
    rewrite (null_unsortable l _ Hnull).
    destruct (prop body "calories") as [c|]; [|contradiction].
    replace (strict_eq (Some c) None) with false by now destruct c.
    cbn [negb orb]. now destruct (macros_throw body).
  - unfold delete_nutrition_entry. now rewrite Hread, Hnull.
Qed.

(** X13. The legacy diet add. For an add with date, meal, food name and
    truthy calories, four numbers that convert to a string and a valid
    date, on a diet file of records with valid dates and a disk that
    works: the add answers 201 with the new entry, whose calories are
    [parseFloat(calories)] with no default (so [null] when that is no
    number), and the list returns the old records and the new entry sorted
    descending by date, records of equal date in the order they had. *)
Theorem diet_add_then_list (env env' : Env) (fs : FS) (s : Session) (body : Json)
  (old : list Json) :
  isAuthenticated (Some s) = true ->
  truthy (prop body "date") = true ->
  truthy (prop body "meal") = true ->
  truthy (prop body "foodName") = true ->
  truthy (prop body "calories") = true ->
  macros_throw body = false ->
  dated body = true ->
  read_json env fs (dietFile (userId s)) (JArr []) = JArr old ->
  forallb dated old = true ->
  unwritable env (dietFile (userId s)) = false ->
  unreadable env' (dietFile (userId s)) = false ->
  exists (new : Json) (fs' : FS) (l : list Json),
    protected env fs (Some s) (POST_diet body) = (Resp 201 new, fs')
    /\ protected env' fs' (Some s) GET_diet = (Resp 200 (JArr l), fs')
    /\ prop new "calories" = Some (json_of_number (parseFloat (prop body "calories")))
    /\ descending l
    /\ Permutation l (old ++ [new])
    /\ ties_as_in (old ++ [new]) l.
Proof.
  intros Hauth Hd Hm Hf Hc Hconv Hv Hread Hold Hw Hr.
  unfold protected. rewrite Hauth. cbn [run_protected].
  unfold post_diet, get_diet.
  rewrite Hd, Hm, Hf, Hc, Hread, Hconv. cbn [negb orb].
  match goal with |- context [Array_sort _ (old ++ [?e])%list] => set (new := e) end.
  assert (Hnd : prop new "date" = prop body "date").
  { unfold new. simpl. destruct (prop body "date"); [reflexivity|discriminate]. }
  assert (Hall : forallb dated (old ++ [new]) = true).
  { rewrite forallb_app, Hold. simpl. rewrite andb_true_r.
    unfold dated, compare_throws, entry_time in *. rewrite Hnd.
    apply andb_true_iff in Hv as [Hc' ->].
    apply negb_true_iff, orb_false_iff in Hc' as [_ ->]. reflexivity. }
  rewrite (dated_sortable _ Hall).
  rewrite write_json_ok by assumption.
  eexists new, _, _. split; [reflexivity|].
  rewrite read_written by assumption.
  repeat split.
  - now apply sort_descending.
  - apply Array_sort_perm.
  - now apply sort_descending.
Qed.

End BulkAndDiet.

(** ** The macros of an added entry *)

Section Macros.
Context `{Runtime}.

(** X9. On the nutrition route and on the legacy diet route, the entry
    an accepted add stores carries the clock reading as its id and, for each
    of protein, carbs and fats, the number the body gives, or 0 when the
    field is missing or reads as no number. *)
Theorem macros_default_to_zero (legacy : bool) (env : Env) (fs : FS) (s : Session)
  (body : Json) :
  let c := if legacy then Diet else Nutrition in
  let after := protected env fs (Some s) (add_to c body) in
  created (fst after) = true ->
  exists entry : Json,
    In entry (records (snd after) (collection_file c (userId s)))
    /\ prop entry "id" = Some (Date_now env)
    /\ forall f, In f ["protein"; "carbs"; "fats"] ->
         (prop body f = None -> prop entry f = Some (JNum 0))
         /\ (parseFloat (prop body f) = NaN -> prop entry f = Some (JNum 0))
         /\ (forall q, parseFloat (prop body f) = Num q -> Qeq_bool q 0 = false ->
              prop entry f = Some (JNum q)).
Proof.
  intros c after. subst after c. unfold protected.
  destruct (isAuthenticated (Some s)); [|discriminate].
  assert (G : forall (n : number), 
             (n = NaN -> json_of_number (or_default n 0) = JNum 0)
             /\ (forall q, n = Num q -> Qeq_bool q 0 = false ->
                   json_of_number (or_default n 0) = JNum q)).
  { intros n. split; [now intros ->|]. intros q -> Hq. unfold or_default. simpl.
    now rewrite Hq. }
  destruct legacy; cbn [add_to run_protected collection_file];
    unfold post_diet, post_nutrition_entry, readUserNutrition, writeUserNutrition.
  - destruct (negb _ || negb _ || negb _ || negb _); [discriminate|].
    destruct (read_json env fs (dietFile (userId s)) (JArr [])); try discriminate.
    destruct (macros_throw body); [discriminate|].
    destruct (sort_throws _); [discriminate|].
    unfold write_json. destruct (unwritable env _); [discriminate|].
    cbn [fst snd]. intros _.
    match goal with |- context [Array_sort _ (l ++ [?e])%list] => exists e end.
    split; [|split; [reflexivity|]].
    + unfold records. cbn [files]. rewrite lookup_insert_eq.
      apply (Permutation_in _ (Permutation_sym (Array_sort_perm _ _))).
      apply in_or_app. right. now left.
    + intros f [<-|[<-|[<-|[]]]]; cbn [prop assoc String.eqb Ascii.eqb Bool.eqb];
        match goal with
        | |- context [or_default ?n 0] => destruct (G n) as [G1 G2]
        end;
        (split; [intros ->; reflexivity|]);
        (split; [intros E|intros q E Hq]); f_equal; eauto.
  - destruct (negb _ || negb _ || negb _ || strict_eq _ _); [discriminate|].
    destruct (read_json env fs (getUserNutritionFile (userId s)) (JArr []));
      try discriminate.
    destruct (macros_throw body); [discriminate|].
    destruct (sort_throws _); [discriminate|].
    unfold write_json. destruct (unwritable env _); [discriminate|].
    cbn [fst snd]. intros _.
    match goal with |- context [Array_sort _ (l ++ [?e])%list] => exists e end.
    split; [|split; [reflexivity|]].
    + unfold records. cbn [files]. rewrite lookup_insert_eq.
      apply (Permutation_in _ (Permutation_sym (Array_sort_perm _ _))).
      apply in_or_app. right. now left.
    + intros f [<-|[<-|[<-|[]]]]; cbn [prop assoc String.eqb Ascii.eqb Bool.eqb];
        match goal with
        | |- context [or_default ?n 0] => destruct (G n) as [G1 G2]
        end;
        (split; [intros ->; reflexivity|]);
        (split; [intros E|intros q E Hq]); f_equal; eauto.
Qed.

End Macros.

(** ** The further properties at concrete requests *)

Section FurtherExamples.
#[local] Existing Instance example_runtime.

Ltac evaluate := lazymatch goal with |- _ = _ => vm_compute; reflexivity end.


(** Three registrations on a store that has alice: a new name, alice's
    name again, and one made while [users.json] cannot be read. *)
Lemma registrations_keep_usernames_distinct_witness :
  distinct_usernames
    (users (register_all store_alice
              [(quiet 1709251200001, credentials "bob" "pw1");
               (quiet 1709251200002, credentials "alice" "pw2");
               (write_only 1709251200003, credentials "bob" "pw3")]))
  = true.
Proof. apply registrations_keep_usernames_distinct. evaluate. Defined.



(** A delete on the diet file while no file can be read. *)
Lemma delete_without_a_readable_file_witness :
  protected (write_only 9) store_dinner (Some alice) (DELETE_diet "1709300000000")
  = (Resp 500 (error "Failed to delete entry"), store_dinner).
Proof.
  rewrite (delete_without_a_readable_file Diet (write_only 9) store_dinner alice
             "1709300000000"); [evaluate|evaluate|right; evaluate].
Defined.

(** An entry with calories 0. *)
Lemma falsy_calories_witness :
  protected (quiet 1709400000000) store_lunch (Some alice)
    (POST_diet (JObj [("date", JStr "2024-03-05"); ("type", JStr "lunch");
                      ("name", JStr "water"); ("meal", JStr "lunch");
                      ("foodName", JStr "water"); ("calories", JNum 0)]))
  = (Resp 400 (error "Required fields missing"), store_lunch).
Proof.
  apply (falsy_calories (quiet 1709400000000) store_lunch alice
           (JObj [("date", JStr "2024-03-05"); ("type", JStr "lunch");
                  ("name", JStr "water"); ("meal", JStr "lunch");
                  ("foodName", JStr "water"); ("calories", JNum 0)])
           (JNum 0) [nutrition_entry 1709300000000 "2024-03-01" "rice" 600]);
    evaluate.
Defined.

(** An add of a weight entry and the list of nutrition entries. *)
Lemma collections_independent_witness :
  fst (protected (quiet 2)
         (snd (protected (quiet 1) store_lunch (Some alice)
                 (POST_entries (weight_body "2024-02-01" "79.5"))))
         (Some alice) GET_nutrition_entries)
  = Resp 200 (JArr [nutrition_entry 1709300000000 "2024-03-01" "rice" 600]).
Proof.
  rewrite (collections_independent (quiet 1) (quiet 2) store_lunch alice
             (POST_entries (weight_body "2024-02-01" "79.5")) GET_nutrition_entries).
  - evaluate.
  - discriminate.
Defined.

(** Adds, a bulk save with [null] and a delete, by Alice and by Bob, and
    then a delete by Alice. *)
Lemma weight_file_stays_sound_witness :
  is_uncaught
    (fst (protected (quiet 9)
            (snd (serve store_two
                    [{| call_env := quiet 1; call_session := Some alice;
                        call_route := POST_entries (weight_body "soon" "abc") |};
                     {| call_env := quiet 2; call_session := Some alice;
                        call_route := POST_nutrition_entries (JArr [JNull]) |};
                     {| call_env := write_only 3; call_session := Some bob;
                        call_route := POST_entries (weight_body "2024-02-01" "64") |};
                     {| call_env := quiet 4; call_session := Some alice;
                        call_route := DELETE_entries "1" |}]))
            (Some alice) (DELETE_entries "2")))
  = false.
Proof.
  apply (weight_file_stays_sound
           [{| call_env := quiet 1; call_session := Some alice;
               call_route := POST_entries (weight_body "soon" "abc") |};
            {| call_env := quiet 2; call_session := Some alice;
               call_route := POST_nutrition_entries (JArr [JNull]) |};
            {| call_env := write_only 3; call_session := Some bob;
               call_route := POST_entries (weight_body "2024-02-01" "64") |};
            {| call_env := quiet 4; call_session := Some alice;
               call_route := DELETE_entries "1" |}]
           store_two alice (quiet 9) (DELETE_entries "2")); evaluate.
Defined.

(** A bulk save of one entry and [null], then an add. *)
Lemma null_record_blocks_nutrition_witness :
  protected (quiet 2)
    (snd (protected (quiet 1) store_lunch (Some alice)
            (POST_nutrition_entries
               (JArr [nutrition_entry 1 "2024-01-01" "rice" 600; JNull]))))
    (Some alice) (POST_nutrition_entry (nutrition_body "2024-03-05" "soup" 250))
  = (Uncaught,
     snd (protected (quiet 1) store_lunch (Some alice)
            (POST_nutrition_entries
               (JArr [nutrition_entry 1 "2024-01-01" "rice" 600; JNull])))).
Proof.
  destruct (null_record_blocks_nutrition (quiet 1) (quiet 2) store_lunch alice
              [nutrition_entry 1 "2024-01-01" "rice" 600; JNull]
              (nutrition_body "2024-03-05" "soup" 250) "1")
    as (_ & _ & Hadd & _);
    [first [evaluate | discriminate] .. | exact Hadd].
Defined.

(** A diet add of an earlier day to a file that holds a later one. *)
Lemma diet_add_then_list_witness :
  exists l : list Json,
    fst (protected (quiet 1709400000001)
           (snd (protected (quiet 1709400000000) store_dinner (Some alice)
                   (POST_diet (diet_body "2024-02-01" "soup" 250))))
           (Some alice) GET_diet)
    = Resp 200 (JArr l)
    /\ descending l.
Proof.
  destruct (diet_add_then_list (quiet 1709400000000) (quiet 1709400000001)
              store_dinner alice (diet_body "2024-02-01" "soup" 250)
              [diet_entry 1709300000000 "2024-03-01" "stew" 700])
    as (new & fs' & l & Hadd & Hlist & _ & Hdesc & _); try evaluate.
  exists l. rewrite Hadd. cbn [snd]. rewrite Hlist. auto.
Defined.

(** An add while the weight file, which holds an entry, cannot be read. *)
Lemma add_replaces_unreadable_file_witness :
  exists new : Json,
    fst (protected (write_only 1709400000000) store_march (Some alice)
           (POST_entries (weight_body "2024-02-01" "79.5")))
    = Resp 201 new
    /\ records (snd (protected (write_only 1709400000000) store_march (Some alice)
                       (POST_entries (weight_body "2024-02-01" "79.5"))))
         (getUserEntriesFile (userId alice))
       = [new].
Proof.
  apply add_replaces_unreadable_file; evaluate.
Defined.

(** A save of settings while nothing can be written. *)
Lemma protected_write_failure_witness :
  snd (protected (read_only 1) store_march (Some alice)
         (POST_nutrition_settings (JObj [("calorieGoal", JNum 1800)])))
  = store_march
  /\ failed (fst (protected (read_only 1) store_march (Some alice)
                   (POST_nutrition_settings (JObj [("calorieGoal", JNum 1800)]))))
     = true.
Proof.
  apply (protected_write_failure (read_only 1) store_march alice
           (POST_nutrition_settings (JObj [("calorieGoal", JNum 1800)]))).
  intros f _. reflexivity.
Defined.

(** Alice's own credentials while [users.json] cannot be read. *)
Lemma unreadable_users_file_witness :
  post_auth_login (write_only 1709251300000) store_alice None
    (credentials "alice" "secret")
  = (Resp 401 (error "Invalid credentials"), None).
Proof.
  apply (unreadable_users_file (write_only 1709251300000) store_alice None
           (credentials "alice" "secret") (JStr "alice") "secret");
    try evaluate.
  discriminate.
Defined.

(** A nutrition add with protein ["12.5"], carbs ["lots"] and no fats. *)
Lemma macros_default_to_zero_witness :
  exists entry : Json,
    In entry
      (records
         (snd (protected (quiet 1709400000000) store_lunch (Some alice)
                 (POST_nutrition_entry
                    (JObj [("date", JStr "2024-03-05"); ("type", JStr "lunch");
                           ("name", JStr "soup"); ("calories", JNum 250);
                           ("protein", JStr "12.5"); ("carbs", JStr "lots")]))))
         (getUserNutritionFile (userId alice)))
    /\ prop entry "protein" = Some (JNum (25 # 2))
    /\ prop entry "carbs" = Some (JNum 0)
    /\ prop entry "fats" = Some (JNum 0).
Proof.
  destruct (macros_default_to_zero false (quiet 1709400000000) store_lunch alice
              (JObj [("date", JStr "2024-03-05"); ("type", JStr "lunch");
                     ("name", JStr "soup"); ("calories", JNum 250);
                     ("protein", JStr "12.5"); ("carbs", JStr "lots")]))
    as (entry & Hin & _ & Hmacro); [evaluate|].
  exists entry. split; [exact Hin|]. repeat split.
  - destruct (Hmacro "protein") as (_ & _ & Hnum); [simpl; auto|].
    apply (Hnum (25 # 2)); evaluate.
  - destruct (Hmacro "carbs") as (_ & Hnan & _); [simpl; auto|].
    apply Hnan. evaluate.
  - destruct (Hmacro "fats") as (Hmissing & _ & _); [simpl; auto|].
    apply Hmissing. evaluate.
Defined.

(** Bob registers in the millisecond in which Alice did. *)
Lemma register_reuses_id_of_the_millisecond_witness :
  fst (post_auth_register (quiet 1709251200000) store_alice_march
         (credentials "bob" "hunter2"))
  = Resp 201
      (JObj [("message", JStr "User registered successfully");
             ("user", JObj [("id", JStr (userId alice)); ("username", JStr "bob")])])
  /\ records (snd (post_auth_register (quiet 1709251200000) store_alice_march
                     (credentials "bob" "hunter2")))
       (getUserEntriesFile (userId alice))
     = [].
Proof.
  destruct (register_reuses_id_of_the_millisecond (quiet 1709251200000)
              store_alice_march (credentials "bob" "hunter2") "bob" "hunter2"
              {| u_id := userId alice; u_username := JStr "alice";
                 u_email := JStr ""; u_password := "$2a$10$secret";
                 u_createdAt := "1709251200000" |})
    as (Hresp & _ & _ & Hfile);
    [first [evaluate | discriminate | now left] .. | ].
  split; [exact Hresp|]. unfold records.
  cbn [u_id] in Hfile. now rewrite Hfile.
Defined.

End FurtherExamples.
